(** * MCP tool servers (bigquery, fetch, template): a shallow embedding

    The three server programs [packages/bigquery/index.ts],
    [packages/fetch/index.ts] and [template/index.ts] are embedded as
    functions of a small state-and-exception monad.  The state is the
    part of the JavaScript heap the programs touch (the request's
    [AbortSignal], the [transport] variable of the SSE branch) together
    with the chronological trace of every observable effect: console
    output, calls on the upstream clients, process exit, messages
    written on the transport.  What the world outside answers (the
    BigQuery client library, [fetch], the client's abort) is an oracle:
    a record of functions from the history to an outcome.  Of the MCP
    SDK the development keeps what the programs rely on: the dispatch of
    a message to the handler registered for its method, and the check,
    at registration, that the server declared the capability of the
    method.

    [template/index.ts] also carries an older copy of the bigquery
    program (two tools, no cancellation, the duplex transport only), and
    an unnamed source file an older copy of the fetch program (no
    prompts); they are embedded after the three programs, and so is the
    scaffolding script [scripts/create-mcp.js]. *)

From Stdlib Require Import List String Ascii ZArith Bool Lia.
From Stdlib Require Import DecimalString.
Import ListNotations.
Local Open Scope string_scope.
Local Open Scope Z_scope.
Set Warnings "-register-all".

(* ================================================================= *)
(** ** JavaScript values *)

Module JS.

(** The values that flow through the handlers: what [JSON.parse] can
    produce, plus [undefined].  Numbers are restricted to integers:
    [JNum z] is the Number value for [z] (see [number_to_string]); no
    handler computes with them except the cost estimate of the dry run,
    which is left to the platform. An object is its list of
    properties, looked up from the front. *)
Inductive JSValue : Type :=
| JUndefined
| JNull
| JBool (b : bool)
| JNum (z : Z)
| JStr (s : string)
| JArr (items : list JSValue)
| JObj (props : list (string * JSValue)).

(** What a [throw] carries: an [Error] instance (its [name] and
    [message]) or any other value. *)
Inductive Thrown : Type :=
| JSError (name message : string)
| JSThrow (v : JSValue).

Definition new_Error (message : string) : Thrown := JSError "Error" message.

(** ToBoolean. *)
Definition truthy (v : JSValue) : bool :=
  match v with
  | JUndefined | JNull => false
  | JBool b => b
  | JNum z => negb (z =? 0)
  | JStr s => negb (s =? "")%string
  | JArr _ | JObj _ => true
  end.

Fixpoint lookup (k : string) (props : list (string * JSValue)) : JSValue :=
  match props with
  | [] => JUndefined
  | (k', v) :: rest => if (k' =? k)%string then v else lookup k rest
  end.

(** [v.k]: a TypeError on [undefined] and [null]; none of the property
    names the programs read exists on a primitive or on an array. *)
Definition get_prop (v : JSValue) (k : string) : Thrown + JSValue :=
  match v with
  | JUndefined =>
      inl (JSError "TypeError"
             ("Cannot read properties of undefined (reading '" ++ k ++ "')"))
  | JNull =>
      inl (JSError "TypeError"
             ("Cannot read properties of null (reading '" ++ k ++ "')"))
  | JObj props => inr (lookup k props)
  | _ => inr JUndefined
  end.

(** [v?.k] *)
Definition get_prop_opt (v : JSValue) (k : string) : JSValue :=
  match get_prop v k with
  | inl _ => JUndefined
  | inr x => x
  end.

(** The decimal digits of an integer. *)
Definition string_of_Z (z : Z) : string :=
  NilZero.string_of_int (Z.to_int z).

(** *** Number::toString

    [JNum z] stands for the Number value for [z]: the double nearest to
    [z], ties going to the even significand, and [Infinity] past the
    largest double.  Its string is the one of the language: the
    shortest digits that read back as the same double, the closest such
    digits among several, written out in full below [1e21] and in
    exponent form from there on. *)

(** The Number value for a positive integer. *)
Definition to_double (z : Z) : Z :=
  let bits := Z.log2 z + 1 in
  if bits <=? 53 then z
  else
    let e := bits - 53 in
    let q := Z.shiftr z e in
    let r := z - Z.shiftl q e in
    let half := Z.shiftl 1 (e - 1) in
    let q' := if (half <? r) || ((r =? half) && Z.odd q) then q + 1 else q in
    Z.shiftl q' e.

Definition is_finite (v : Z) : bool := v <? 2 ^ 1024.

Definition decimal_length (v : Z) : Z :=
  Z.of_nat (String.length (string_of_Z v)).

(** The shortest digits of the double [v], as the integer they denote:
    with one more digit at each round, the multiple of [p] just below
    [v] and the one just above are tried, [p] being the weight of the
    last digit kept. *)
Fixpoint digits_from (fuel : nat) (p : Z) (v : Z) : Z :=
  match fuel with
  | O => v
  | S fuel' =>
      let lo := (v / p) * p in
      let hi := lo + p in
      let lo_ok := (0 <? lo) && (to_double lo =? v) in
      let hi_ok := to_double hi =? v in
      if lo_ok && hi_ok then
        (if v - lo <? hi - v then lo
         else if hi - v <? v - lo then hi
         else if Z.even (lo / p) then lo else hi)
      else if lo_ok then lo
      else if hi_ok then hi
      else if p =? 1 then v
      else digits_from fuel' (p / 10) v
  end.

(** A double has at most 309 digits before the point. *)
Definition shortest (v : Z) : Z :=
  digits_from 310 (10 ^ (decimal_length v - 1)) v.

Fixpoint strip_zeros (digits : list ascii) : list ascii :=
  match digits with
  | "0"%char :: rest => strip_zeros rest
  | _ => digits
  end.

Definition strip_trailing_zeros (s : string) : string :=
  string_of_list_ascii (rev (strip_zeros (rev (list_ascii_of_string s)))).

Definition positive_to_string (z : Z) : string :=
  let v := to_double z in
  if negb (is_finite v) then "Infinity"
  else
    let c := shortest v in
    let n := decimal_length c in
    if n <=? 21 then string_of_Z c
    else
      match strip_trailing_zeros (string_of_Z c) with
      | EmptyString => string_of_Z c
      | String d EmptyString => String d ("e+" ++ string_of_Z (n - 1))
      | String d rest => String d ("." ++ rest ++ "e+" ++ string_of_Z (n - 1))
      end.

(** Below [2^53] every integer is a double and its shortest digits are
    its own. *)
Definition number_to_string (z : Z) : string :=
  if Z.abs z <? 2 ^ 53 then string_of_Z z
  else if z <? 0 then "-" ++ positive_to_string (- z)
  else positive_to_string z.

Fixpoint join (sep : string) (parts : list string) : string :=
  match parts with
  | [] => ""
  | [p] => p
  | p :: rest => p ++ sep ++ join sep rest
  end.

(** ToString, as used by template literals and [String(v)]. *)
Fixpoint js_to_string (v : JSValue) : string :=
  match v with
  | JUndefined => "undefined"
  | JNull => "null"
  | JBool true => "true"
  | JBool false => "false"
  | JNum z => number_to_string z
  | JStr s => s
  | JArr items =>
      join ","
        (map (fun x => match x with
                       | JUndefined | JNull => ""
                       | _ => js_to_string x
                       end) items)
  | JObj _ => "[object Object]"
  end.

(** [Error.prototype.toString], and ToString on other thrown values:
    what [`${error}`] evaluates to. *)
Definition thrown_to_string (e : Thrown) : string :=
  match e with
  | JSError name message =>
      if (name =? "")%string then message
      else if (message =? "")%string then name
      else name ++ ": " ++ message
  | JSThrow v => js_to_string v
  end.

(** [error instanceof Error && error.name === "AbortError"] *)
Definition is_AbortError (e : Thrown) : bool :=
  match e with
  | JSError name _ => (name =? "AbortError")%string
  | JSThrow _ => false
  end.

(** [error instanceof Error ? error.message : String(error)] *)
Definition error_message (e : Thrown) : string :=
  match e with
  | JSError _ message => message
  | JSThrow v => js_to_string v
  end.

(** *** JSON.stringify *)

Definition hex_digit (n : N) : ascii :=
  match n with
  | 0%N => "0" | 1%N => "1" | 2%N => "2" | 3%N => "3" | 4%N => "4"
  | 5%N => "5" | 6%N => "6" | 7%N => "7" | 8%N => "8" | 9%N => "9"
  | 10%N => "a" | 11%N => "b" | 12%N => "c" | 13%N => "d" | 14%N => "e"
  | _ => "f"
  end%char.

(** QuoteJSONString on one code unit. *)
Definition escape_char (c : ascii) : string :=
  let n := N_of_ascii c in
  if (n =? 34)%N then "\" ++ String c ""
  else if (n =? 92)%N then "\\"
  else if (n =? 8)%N then "\b"
  else if (n =? 12)%N then "\f"
  else if (n =? 10)%N then "\n"
  else if (n =? 13)%N then "\r"
  else if (n =? 9)%N then "\t"
  else if (n <? 32)%N then
    "\u00" ++ String (hex_digit (n / 16)) (String (hex_digit (n mod 16)) "")
  else String c "".

Fixpoint escape (s : string) : string :=
  match s with
  | EmptyString => ""
  | String c rest => escape_char c ++ escape rest
  end.

Definition dquote : string := String (ascii_of_N 34) "".

Definition quote (s : string) : string := dquote ++ escape s ++ dquote.

(** SerializeJSONProperty: [None] stands for [undefined], which drops a
    property from an object and prints as [null] inside an array; a
    number that is not finite prints as [null]. *)
Fixpoint serialize (v : JSValue) : option string :=
  match v with
  | JUndefined => None
  | JNull => Some "null"
  | JBool true => Some "true"
  | JBool false => Some "false"
  | JNum z =>
      Some (if is_finite (to_double (Z.abs z)) then number_to_string z
            else "null")
  | JStr s => Some (quote s)
  | JArr items =>
      Some ("[" ++ join ","
                     (map (fun x => match serialize x with
                                    | Some t => t
                                    | None => "null"
                                    end) items) ++ "]")
  | JObj props =>
      Some ("{" ++ join ","
                     ((fix members (ps : list (string * JSValue)) : list string :=
                         match ps with
                         | [] => []
                         | (k, x) :: rest =>
                             match serialize x with
                             | Some t => (quote k ++ ":" ++ t) :: members rest
                             | None => members rest
                             end
                         end) props) ++ "}")
  end.

(** [JSON.stringify(v)]: a string, or [undefined]. *)
Definition JSON_stringify (v : JSValue) : JSValue :=
  match serialize v with
  | Some t => JStr t
  | None => JUndefined
  end.

End JS.
Export JS.

(* ================================================================= *)
(** ** The runtime: effects, the heap, the monad *)

Module Runtime.

(** A BigQuery job handle: [job.id] and [job.metadata]. *)
Record Job : Type := mkJob { job_id : JSValue; job_metadata : JSValue }.

(** What [fetch] resolves to: [ok], [status], and what [text()] and
    [json()] settle with. *)
Record Response : Type := mkResponse {
  resp_ok : bool;
  resp_status : Z;
  resp_text : Thrown + string;
  resp_json : Thrown + JSValue
}.

(** Calls that leave the process. *)
Inductive UpstreamCall : Type :=
| CreateQueryJob (options : JSValue)
| JobCancel (job : Job)
| JobGetQueryResults (job : Job)
| JobGetMetadata (job : Job)
| HttpFetch (url : JSValue) (headers : list (string * string))
| ResponseText
| ResponseJson.

Inductive TransportKind : Type := StdioTransport | SSETransport.

(** [new SSEServerTransport(endpoint, res)] *)
Record SSEServerTransport : Type := mkSSE { sse_endpoint : string; sse_res : nat }.

(** Observable effects, in the order they happen.  [ConsoleError] and
    [ConsoleLog] keep the first (string) argument of the call; the
    objects printed after it are left out. *)
Inductive Event : Type :=
| ConsoleError (line : string)
| ConsoleLog (line : string)
| ProcessExit (code : Z)
| Call (call : UpstreamCall)
| AddEventListener (closure : nat) (once : bool)
| RemoveEventListener (closure : nat)
| AbortDelivered
| ServerConnect (kind : TransportKind)
| AppListen (port : Z)
| HandlePostMessage (t : SSEServerTransport)
| HandlerInvoked (method : string)
| TransportSend (kind : TransportKind) (payload : Thrown + JSValue).

(** The closure [onAbort] of [executeQuery]; it captures [job]. *)
Inductive Callback : Type := OnAbort (job : Job).

Record Listener : Type := mkListener {
  l_closure : nat;
  l_callback : Callback;
  l_once : bool
}.

Record World : Type := mkWorld {
  aborted : bool;                         (* signal.aborted *)
  listeners : list Listener;              (* the signal's abort listeners *)
  next_closure : nat;                     (* identity of the next closure *)
  transport : option SSEServerTransport;  (* [let transport] of the SSE branch *)
  trace : list Event
}.

Definition init_world : World :=
  {| aborted := false; listeners := []; next_closure := 0%nat;
     transport := None; trace := [] |}.

(** The world outside: every answer may depend on all that happened so
    far.  [up_abort] says whether the client aborts the request while
    the handler is suspended at the await reached after this history. *)
Record Upstream : Type := mkUpstream {
  up_createQueryJob : list Event -> JSValue -> Thrown + Job;
  up_cancel : list Event -> Job -> Thrown + unit;
  up_getQueryResults : list Event -> Job -> Thrown + JSValue;
  up_getMetadata : list Event -> Job -> Thrown + JSValue;
  up_fetch : list Event -> JSValue -> list (string * string) -> Thrown + Response;
  up_abort : list Event -> bool
}.

Inductive Outcome (A : Type) : Type :=
| Ret (a : A)
| Throw (e : Thrown)
| Exit (code : Z).
Arguments Ret {A} a.
Arguments Throw {A} e.
Arguments Exit {A} code.

Definition M (A : Type) : Type := World -> Outcome A * World.

Definition ret {A} (a : A) : M A := fun w => (Ret a, w).

Definition bind {A B} (m : M A) (k : A -> M B) : M B :=
  fun w =>
    match m w with
    | (Ret a, w') => k a w'
    | (Throw e, w') => (Throw e, w')
    | (Exit c, w') => (Exit c, w')
    end.

Definition throw {A} (e : Thrown) : M A := fun w => (Throw e, w).

(** [try { m } catch (error) { h error }]; an exit is not caught. *)
Definition try_catch {A} (m : M A) (h : Thrown -> M A) : M A :=
  fun w =>
    match m w with
    | (Throw e, w') => h e w'
    | r => r
    end.

(** [try { m } finally { f }] *)
Definition try_finally {A} (m : M A) (f : M unit) : M A :=
  fun w =>
    match m w with
    | (Exit c, w') => (Exit c, w')
    | (r, w') =>
        match f w' with
        | (Ret _, w'') => (r, w'')
        | (Throw e, w'') => (Throw e, w'')
        | (Exit c, w'') => (Exit c, w'')
        end
    end.

Definition lift {A} (r : Thrown + A) : M A :=
  match r with
  | inl e => throw e
  | inr a => ret a
  end.

Definition emit (e : Event) : M unit :=
  fun w => (Ret tt, {| aborted := aborted w; listeners := listeners w;
                       next_closure := next_closure w;
                       transport := transport w;
                       trace := trace w ++ [e] |}).

Definition get_world : M World := fun w => (Ret w, w).

Definition console_error (line : string) : M unit := emit (ConsoleError line).
Definition console_log (line : string) : M unit := emit (ConsoleLog line).

(** [process.exit(code)] does not return. *)
Definition process_exit {A} (code : Z) : M A :=
  fun w => match emit (ProcessExit code) w with
           | (_, w') => (Exit code, w')
           end.

(** [const f = () => ...]: a closure has an identity of its own. *)
Definition new_closure : M nat :=
  fun w => (Ret (next_closure w),
            {| aborted := aborted w; listeners := listeners w;
               next_closure := S (next_closure w);
               transport := transport w; trace := trace w |}).

Definition set_transport (t : option SSEServerTransport) : M unit :=
  fun w => (Ret tt, {| aborted := aborted w; listeners := listeners w;
                       next_closure := next_closure w;
                       transport := t; trace := trace w |}).

(** A request arrives with a signal of its own. *)
Definition fresh_signal (already_aborted : bool) : M unit :=
  fun w => (Ret tt, {| aborted := already_aborted; listeners := [];
                       next_closure := next_closure w;
                       transport := transport w; trace := trace w |}).

(** The one [AbortSignal] of the request being handled. *)
Inductive AbortSignal : Type := RequestSignal.

(** [signal?.aborted] *)
Definition signal_aborted (signal : option AbortSignal) : M bool :=
  match signal with
  | None => ret false
  | Some RequestSignal => fun w => (Ret (aborted w), w)
  end.

(** [signal?.addEventListener("abort", callback, { once })]; adding a
    callback that is already registered does nothing. *)
Definition addEventListener (signal : option AbortSignal) (closure : nat)
    (callback : Callback) (once : bool) : M unit :=
  match signal with
  | None => ret tt
  | Some RequestSignal =>
      fun w =>
        (Ret tt,
         {| aborted := aborted w;
            listeners :=
              if existsb (fun l => Nat.eqb (l_closure l) closure) (listeners w)
              then listeners w
              else listeners w ++ [mkListener closure callback once];
            next_closure := next_closure w;
            transport := transport w;
            trace := trace w ++ [AddEventListener closure once] |})
  end.

(** [signal?.removeEventListener("abort", callback)] *)
Definition removeEventListener (signal : option AbortSignal) (closure : nat)
    : M unit :=
  match signal with
  | None => ret tt
  | Some RequestSignal =>
      fun w =>
        (Ret tt,
         {| aborted := aborted w;
            listeners :=
              filter (fun l => negb (Nat.eqb (l_closure l) closure)) (listeners w);
            next_closure := next_closure w;
            transport := transport w;
            trace := trace w ++ [RemoveEventListener closure] |})
  end.

End Runtime.
Export Runtime.

Declare Scope js_scope.
Delimit Scope js_scope with js.
Notation "x <- m ;; k" := (bind m (fun x => k))
  (at level 61, m at next level, right associativity) : js_scope.
Notation "m ;; k" := (bind m (fun _ => k))
  (at level 61, right associativity) : js_scope.
Local Open Scope js_scope.

(* ================================================================= *)
(** ** Suspension points *)

Section Await.

Variable ups : Upstream.

(** Body of [onAbort]:
    [job.cancel().catch((err) => console.error("Failed to cancel BigQuery job:", err))].
    The call is issued at once and not awaited; its rejection, if any, is
    logged by the [catch] callback. *)
Definition run_callback (c : Callback) : M unit :=
  match c with
  | OnAbort job =>
      emit (Call (JobCancel job)) ;;
      w <- get_world ;;
      match up_cancel ups (trace w) job with
      | inl _ => console_error "Failed to cancel BigQuery job:"
      | inr _ => ret tt
      end
  end.

Fixpoint run_callbacks (ls : list Listener) : M unit :=
  match ls with
  | [] => ret tt
  | l :: rest => run_callback (l_callback l) ;; run_callbacks rest
  end.

(** The client aborts the request: the flag is set, the listeners run in
    the order they were added, and those added with [once] are dropped.
    A signal aborts at most once. *)
Definition deliver_abort : M unit :=
  fun w =>
    if aborted w then (Ret tt, w)
    else
      run_callbacks (listeners w)
        {| aborted := true;
           listeners := filter (fun l => negb (l_once l)) (listeners w);
           next_closure := next_closure w;
           transport := transport w;
           trace := trace w ++ [AbortDelivered] |}.

(** [await call]: the call goes out, the handler is suspended, the
    abort may arrive meanwhile, then the call settles. *)
Definition await {A} (call : UpstreamCall)
    (answer : list Event -> Thrown + A) : M A :=
  emit (Call call) ;;
  w <- get_world ;;
  (if up_abort ups (trace w) then deliver_abort else ret tt) ;;
  w' <- get_world ;;
  lift (answer (trace w')).

End Await.

(* ================================================================= *)
(** ** What the three programs share: the protocol types *)

Module Protocol.

(** [Tool]: name, description, and the [inputSchema] (each property
    with its type and description, and the [required] names). *)
Record Tool : Type := mkTool {
  tool_name : string;
  tool_description : string;
  tool_properties : list (string * (string * string));
  tool_required : list string
}.

Definition tool_to_js (t : Tool) : JSValue :=
  JObj [("name", JStr (tool_name t));
        ("description", JStr (tool_description t));
        ("inputSchema",
         JObj [("type", JStr "object");
               ("properties",
                JObj (map (fun p =>
                             (fst p, JObj [("type", JStr (fst (snd p)));
                                           ("description", JStr (snd (snd p)))]))
                          (tool_properties t)));
               ("required", JArr (map JStr (tool_required t)))])].

(** [request.params] of a call-tool request. *)
Record CallToolRequest : Type := mkCallTool {
  params_name : string;
  params_arguments : JSValue
}.

(** [request.params] of a get-prompt request. *)
Record GetPromptRequest : Type := mkGetPrompt {
  prompt_name : string;
  prompt_arguments : JSValue
}.

(** The [extra] argument of a request handler. *)
Record RequestHandlerExtra : Type := mkExtra { signal : AbortSignal }.

(** [{ content: [{ type: "text", text }] }] *)
Definition text_content (text : JSValue) : JSValue :=
  JObj [("content", JArr [JObj [("type", JStr "text"); ("text", text)]])].

(** The request handlers a program registers on its [Server]. *)
Record Server : Type := mkServer {
  server_name : string;
  onCallTool : CallToolRequest -> RequestHandlerExtra -> M JSValue;
  onListTools : M JSValue;
  onListPrompts : option (M JSValue);
  onGetPrompt : option (GetPromptRequest -> M JSValue)
}.

Fixpoint includes (x : string) (l : list string) : bool :=
  match l with
  | [] => false
  | y :: rest => if (y =? x)%string then true else includes x rest
  end.

(** The capability a request method belongs to, as the SDK's [Server]
    has it in [assertRequestHandlerCapability]. *)
Definition required_capability (method : string) : option string :=
  if (method =? "tools/call")%string || (method =? "tools/list")%string
  then Some "tools"
  else if (method =? "prompts/get")%string || (method =? "prompts/list")%string
  then Some "prompts"
  else None.

(** [server.setRequestHandler(schema, handler)], on a server constructed
    with [capabilities] and for the method of [schema]: the SDK throws
    when the server did not declare the capability of the method. *)
Definition setRequestHandler (capabilities : list string) (method : string)
    : M unit :=
  match required_capability method with
  | Some capability =>
      if includes capability capabilities then ret tt
      else throw (new_Error ("Server does not support " ++ capability
                             ++ " (required for " ++ method ++ ")"))
  | None => ret tt
  end.

(** [process.env.NAME]: [undefined] when the variable is not set. *)
Definition Env : Type := string -> option string.

Definition env_value (env : Env) (name : string) : JSValue :=
  match env name with
  | Some s => JStr s
  | None => JUndefined
  end.

End Protocol.
Export Protocol.

(* ================================================================= *)
(** ** The SDK's [Server] and the two transports

    The closing block of [main] is the same text in the three programs;
    it is embedded once.  What the SDK does with a message (find the
    handler registered for its method, run it with a fresh signal, write
    the result or the error on the transport) is the SDK's contract, not
    code of the repository. *)

Module Transport.

Inductive Message : Type :=
| CallTool (request : CallToolRequest)
| ListTools
| ListPrompts
| GetPrompt (request : GetPromptRequest).

(** A message as it comes in, and whether its request is cancelled
    before its handler runs. *)
Record Inbound : Type := mkInbound {
  message : Message;
  already_aborted : bool
}.

Definition method_not_found : Thrown := JSError "McpError" "Method not found".

Definition respond (kind : TransportKind) (method : string)
    (handler : option (M JSValue)) : M unit :=
  match handler with
  | None => emit (TransportSend kind (inl method_not_found))
  | Some h =>
      emit (HandlerInvoked method) ;;
      fun w =>
        match h w with
        | (Ret v, w') => emit (TransportSend kind (inr v)) w'
        | (Throw e, w') => emit (TransportSend kind (inl e)) w'
        | (Exit c, w') => (Exit c, w')
        end
  end.

Definition handle_message (server : Server) (kind : TransportKind)
    (msg : Inbound) : M unit :=
  fresh_signal (already_aborted msg) ;;
  match message msg with
  | CallTool request =>
      respond kind "tools/call"
        (Some (onCallTool server request (mkExtra RequestSignal)))
  | ListTools => respond kind "tools/list" (Some (onListTools server))
  | ListPrompts => respond kind "prompts/list" (onListPrompts server)
  | GetPrompt request =>
      respond kind "prompts/get"
        (option_map (fun h => h request) (onGetPrompt server))
  end.

(** What [main] leaves behind: the server with its handlers, and the
    transport chosen at startup. *)
Definition Running : Type := (Server * TransportKind)%type.

(** [app.get("/sse", ...)] *)
Definition app_get_sse (server : Server) (res : nat) : M unit :=
  set_transport (Some (mkSSE "/messages" res)) ;;
  emit (ServerConnect SSETransport).

(** [app.post("/messages", ...)] *)
Definition app_post_messages (server : Server) (req : Inbound) : M unit :=
  w <- get_world ;;
  match transport w with
  | Some t =>
      emit (HandlePostMessage t) ;;
      handle_message server SSETransport req
  | None => ret tt
  end.

(** [if (process.argv.includes("--sse")) { ... } else { ... }] *)
Definition start_transport (server : Server) (argv : list string) : M Running :=
  if includes "--sse" argv then
    set_transport None ;;
    emit (AppListen 3000) ;;
    console_log "[sse] MCP Server running on http://localhost:3000" ;;
    ret (server, SSETransport)
  else
    console_error "[stdio] Connecting server to transport..." ;;
    emit (ServerConnect StdioTransport) ;;
    console_error "[stdio] MCP Server running on stdio" ;;
    ret (server, StdioTransport).

(** What reaches the process once [main] has returned. *)
Inductive Input : Type :=
| StdinMessage (msg : Inbound)
| HttpGetSse (res : nat)
| HttpPostMessages (req : Inbound).

(** An input for an endpoint the chosen transport did not open is not
    seen by the process. *)
Definition step (r : Running) (i : Input) : M unit :=
  match snd r, i with
  | StdioTransport, StdinMessage msg => handle_message (fst r) StdioTransport msg
  | SSETransport, HttpGetSse res => app_get_sse (fst r) res
  | SSETransport, HttpPostMessages req => app_post_messages (fst r) req
  | _, _ => ret tt
  end.

Fixpoint serve (r : Running) (inputs : list Input) : M unit :=
  match inputs with
  | [] => ret tt
  | i :: rest => step r i ;; serve r rest
  end.

(** [main().catch((error) => { console.error("Fatal error in main():", error); process.exit(1); })],
    followed by the life of the process. *)
Definition run_process (main : M Running) (inputs : list Input) : M unit :=
  r <- try_catch main
         (fun error => console_error "Fatal error in main():" ;; process_exit 1) ;;
  serve r inputs.

(** Where protocol responses are written: the duplex transport writes
    on the standard output, the push-stream transport on the HTTP
    response of the open [/sse] request. *)
Inductive Channel : Type := Stdout | Stderr | HttpStream.

Definition protocol_channel (kind : TransportKind) : Channel :=
  match kind with
  | StdioTransport => Stdout
  | SSETransport => HttpStream
  end.

(** Where a diagnostic line goes: [console.error] writes on the
    standard error, [console.log] on the standard output. *)
Definition diagnostic_channel (e : Event) : option Channel :=
  match e with
  | ConsoleError _ => Some Stderr
  | ConsoleLog _ => Some Stdout
  | _ => None
  end.

Definition transport_of (argv : list string) : TransportKind :=
  if includes "--sse" argv then SSETransport else StdioTransport.

End Transport.
Export Transport.

(* ================================================================= *)
(** ** packages/bigquery/index.ts *)

Module BigQuery.

Definition executeQueryTool : Tool :=
  mkTool "bigquery_execute_query" "Execute a BigQuery SQL query"
    [("query", ("string", "The SQL query to execute"))] ["query"].

Definition dryRunQueryTool : Tool :=
  mkTool "bigquery_dry_run_query"
    "Perform a dry run of a BigQuery SQL query to estimate cost"
    [("query", ("string", "The SQL query to dry run"))] ["query"].

Definition getJobTool : Tool :=
  mkTool "bigquery_get_job"
    "Get detailed information about a BigQuery job including status, statistics, and configuration"
    [("jobId", ("string", "The BigQuery job ID to look up"))] ["jobId"].

Definition cancelJobTool : Tool :=
  mkTool "bigquery_cancel_job" "Cancel a running BigQuery job"
    [("jobId", ("string", "The BigQuery job ID to cancel"))] ["jobId"].

Definition tools : list Tool :=
  [executeQueryTool; dryRunQueryTool; getJobTool; cancelJobTool].

(** [{ success: false, error }] *)
Definition failure (error : string) : JSValue :=
  JObj [("success", JBool false); ("error", JStr error)].

Section Client.

Variable ups : Upstream.

(** [JSON.parse], a built-in. *)
Variable JSON_parse : string -> Thrown + JSValue.

(** [(bytesProcessed / (1024 * 1024 * 1024 * 1024)) * 5] in IEEE double
    arithmetic, which is not modelled. *)
Variable costInUSD : JSValue -> JSValue.

Record BigQueryClient : Type := mkClient { client_credentials : JSValue }.

(** [constructor(credentials)] *)
Definition new_BigQueryClient (credentials : string) : M BigQueryClient :=
  parsed <- lift (JSON_parse credentials) ;;
  ret (mkClient parsed).

(** [this.client.job(jobId)]: a handle, no request is sent. *)
Definition client_job (jobId : JSValue) : Job := mkJob jobId (JObj []).

Definition createQueryJob (options : JSValue) : M Job :=
  await ups (CreateQueryJob options) (fun h => up_createQueryJob ups h options).

Definition job_cancel (job : Job) : M unit :=
  await ups (JobCancel job) (fun h => up_cancel ups h job).

Definition job_getQueryResults (job : Job) : M JSValue :=
  await ups (JobGetQueryResults job) (fun h => up_getQueryResults ups h job).

Definition job_getMetadata (job : Job) : M JSValue :=
  await ups (JobGetMetadata job) (fun h => up_getMetadata ups h job).

Definition executeQuery (this : BigQueryClient) (query : JSValue)
    (signal : option AbortSignal) : M JSValue :=
  try_catch
    (job <- createQueryJob (JObj [("query", query)]) ;;
     onAbort <- new_closure ;;
     is_aborted <- signal_aborted signal ;;
     if is_aborted : bool then
       job_cancel job ;;
       ret (JObj [("success", JBool false);
                  ("error", JStr "Request was cancelled");
                  ("jobId", job_id job)])
     else
       addEventListener signal onAbort (OnAbort job) true ;;
       try_finally
         (rows <- job_getQueryResults job ;;
          ret (JObj [("success", JBool true); ("rows", rows);
                     ("jobId", job_id job)]))
         (removeEventListener signal onAbort))
    (fun error =>
       if is_AbortError error then ret (failure "Request was cancelled")
       else ret (failure (error_message error))).

Definition dryRunQuery (this : BigQueryClient) (query : JSValue) : M JSValue :=
  let options := JObj [("query", query); ("dryRun", JBool true)] in
  try_catch
    (job <- createQueryJob options ;;
     let metadata := job_metadata job in
     statistics <- lift (get_prop metadata "statistics") ;;
     statistics_query <- lift (get_prop statistics "query") ;;
     bytesProcessed <- lift (get_prop statistics_query "totalBytesProcessed") ;;
     ret (JObj [("success", JBool true);
                ("bytesProcessed", bytesProcessed);
                ("costInUSD", costInUSD bytesProcessed);
                ("jobId", job_id job)]))
    (fun error => ret (failure (error_message error))).

(** [metadata.a?.b] and [metadata.a?.b?.c] *)
Definition path2 (metadata : JSValue) (a b : string) : M JSValue :=
  x <- lift (get_prop metadata a) ;; ret (get_prop_opt x b).

Definition path3 (metadata : JSValue) (a b c : string) : M JSValue :=
  x <- lift (get_prop metadata a) ;; ret (get_prop_opt (get_prop_opt x b) c).

Definition getJob (this : BigQueryClient) (jobId : JSValue) : M JSValue :=
  try_catch
    (let job := client_job jobId in
     metadata <- job_getMetadata job ;;
     r_jobId <- path2 metadata "jobReference" "jobId" ;;
     state <- path2 metadata "status" "state" ;;
     errorResult <- path2 metadata "status" "errorResult" ;;
     errors <- path2 metadata "status" "errors" ;;
     creationTime <- path2 metadata "statistics" "creationTime" ;;
     startTime <- path2 metadata "statistics" "startTime" ;;
     endTime <- path2 metadata "statistics" "endTime" ;;
     totalBytesProcessed <- path3 metadata "statistics" "query" "totalBytesProcessed" ;;
     totalBytesBilled <- path3 metadata "statistics" "query" "totalBytesBilled" ;;
     cacheHit <- path3 metadata "statistics" "query" "cacheHit" ;;
     queryPlan <- path3 metadata "statistics" "query" "queryPlan" ;;
     query <- path3 metadata "configuration" "query" "query" ;;
     destinationTable <- path3 metadata "configuration" "query" "destinationTable" ;;
     useLegacySql <- path3 metadata "configuration" "query" "useLegacySql" ;;
     ret (JObj [("success", JBool true);
                ("jobId", r_jobId);
                ("status",
                 JObj [("state", state); ("errorResult", errorResult);
                       ("errors", errors)]);
                ("statistics",
                 JObj [("creationTime", creationTime); ("startTime", startTime);
                       ("endTime", endTime);
                       ("totalBytesProcessed", totalBytesProcessed);
                       ("totalBytesBilled", totalBytesBilled);
                       ("cacheHit", cacheHit); ("queryPlan", queryPlan)]);
                ("configuration",
                 JObj [("query", query); ("destinationTable", destinationTable);
                       ("useLegacySql", useLegacySql)])]))
    (fun error => ret (failure (error_message error))).

Definition cancelJob (this : BigQueryClient) (jobId : JSValue) : M JSValue :=
  try_catch
    (let job := client_job jobId in
     job_cancel job ;;
     metadata <- job_getMetadata job ;;
     r_jobId <- path2 metadata "jobReference" "jobId" ;;
     state <- path2 metadata "status" "state" ;;
     errorResult <- path2 metadata "status" "errorResult" ;;
     ret (JObj [("success", JBool true);
                ("jobId", r_jobId);
                ("status", JObj [("state", state); ("errorResult", errorResult)])]))
    (fun error => ret (failure (error_message error))).

(** The handler registered for [CallToolRequestSchema]. *)
Definition callTool (bigqueryClient : BigQueryClient)
    (request : CallToolRequest) (extra : RequestHandlerExtra) : M JSValue :=
  console_error "Received CallToolRequest:" ;;
  try_catch
    (if negb (truthy (params_arguments request)) then
       throw (new_Error "No arguments provided")
     else
       let args := params_arguments request in
       if (params_name request =? "bigquery_execute_query")%string then
         query <- lift (get_prop args "query") ;;
         if negb (truthy query) then
           throw (new_Error "Missing required argument: query")
         else
           response <- executeQuery bigqueryClient query (Some (signal extra)) ;;
           ret (text_content (JSON_stringify response))
       else if (params_name request =? "bigquery_dry_run_query")%string then
         query <- lift (get_prop args "query") ;;
         if negb (truthy query) then
           throw (new_Error "Missing required argument: query")
         else
           response <- dryRunQuery bigqueryClient query ;;
           ret (text_content (JSON_stringify response))
       else if (params_name request =? "bigquery_get_job")%string then
         jobId <- lift (get_prop args "jobId") ;;
         if negb (truthy jobId) then
           throw (new_Error "Missing required argument: jobId")
         else
           response <- getJob bigqueryClient jobId ;;
           ret (text_content (JSON_stringify response))
       else if (params_name request =? "bigquery_cancel_job")%string then
         jobId <- lift (get_prop args "jobId") ;;
         if negb (truthy jobId) then
           throw (new_Error "Missing required argument: jobId")
         else
           response <- cancelJob bigqueryClient jobId ;;
           ret (text_content (JSON_stringify response))
       else
         throw (new_Error ("Unknown tool: " ++ params_name request)))
    (fun error =>
       console_error "Error executing tool:" ;;
       ret (text_content
              (JSON_stringify (JObj [("error", JStr (error_message error))])))).

(** The handler registered for [ListToolsRequestSchema]. *)
Definition listTools : M JSValue :=
  console_error "Received ListToolsRequest" ;;
  ret (JObj [("tools", JArr (map tool_to_js tools))]).

(** [capabilities: { tools: {} }] *)
Definition capabilities : list string := ["tools"].

Definition main (env : Env) (argv : list string) : M Running :=
  let credentials := env_value env "BIGQUERY_CREDENTIALS" in
  if negb (truthy credentials) then
    console_error "Please set BIGQUERY_CREDENTIALS environment variable" ;;
    process_exit 1
  else
    console_error "Starting BigQuery MCP Server..." ;;
    bigqueryClient <- new_BigQueryClient (js_to_string credentials) ;;
    setRequestHandler capabilities "tools/call" ;;
    setRequestHandler capabilities "tools/list" ;;
    start_transport
      (mkServer "BigQuery MCP Server" (callTool bigqueryClient) listTools
         None None)
      argv.

End Client.

End BigQuery.

(* ================================================================= *)
(** ** packages/fetch/index.ts *)

Module Fetch.

Definition DEFAULT_USER_AGENT : string :=
  "ModelContextProtocol/1.0 (+https://github.com/modelcontextprotocol/servers)".

Definition fetchTool : Tool :=
  mkTool "fetch" "Fetches content from a URL"
    [("url", ("string", "URL to fetch"))] ["url"].

Definition tools : list Tool := [fetchTool].

Definition newline : string := String (ascii_of_N 10) "".

Section Client.

Variable ups : Upstream.

Record FetchClient : Type := mkClient { userAgent : string }.

Definition fetchUrl (this : FetchClient) (url : JSValue) : M string :=
  try_catch
    (let headers := [("User-Agent", userAgent this)] in
     response <- await ups (HttpFetch url headers)
                   (fun h => up_fetch ups h url headers) ;;
     if negb (resp_ok response) then
       throw (new_Error ("Failed to fetch " ++ js_to_string url
                         ++ " - status code "
                         ++ number_to_string (resp_status response)))
     else
       await ups ResponseText (fun _ => resp_text response))
    (fun error =>
       throw (new_Error ("Failed to fetch " ++ js_to_string url ++ ": "
                         ++ thrown_to_string error))).

(** The handler registered for [CallToolRequestSchema]. *)
Definition callTool (fetchClient : FetchClient)
    (request : CallToolRequest) (extra : RequestHandlerExtra) : M JSValue :=
  console_error "Received CallToolRequest:" ;;
  try_catch
    (if negb (truthy (params_arguments request)) then
       throw (new_Error "No arguments provided")
     else
       let args := params_arguments request in
       if (params_name request =? "fetch")%string then
         url <- lift (get_prop args "url") ;;
         if negb (truthy url) then
           throw (new_Error "URL is required")
         else
           content <- fetchUrl fetchClient url ;;
           ret (text_content
                  (JStr ("Contents of " ++ js_to_string url ++ ":"
                         ++ newline ++ content)))
       else
         throw (new_Error ("Unknown tool: " ++ params_name request)))
    (fun error =>
       console_error "Error executing tool:" ;;
       ret (text_content
              (JSON_stringify (JObj [("error", JStr (error_message error))])))).

(** The handler registered for [ListToolsRequestSchema]. *)
Definition listTools : M JSValue :=
  console_error "Received ListToolsRequest" ;;
  ret (JObj [("tools", JArr (map tool_to_js tools))]).

(** The handler registered for [ListPromptsRequestSchema]. *)
Definition listPrompts : M JSValue :=
  console_error "Received ListPromptsRequest" ;;
  ret (JObj [("prompts",
              JArr [JObj [("name", JStr "fetch");
                          ("description", JStr "Fetch content from a URL");
                          ("arguments",
                           JArr [JObj [("name", JStr "url");
                                       ("description", JStr "URL to fetch");
                                       ("required", JBool true)]])]])]).

(** [{ description, messages: [{ role: "user", content: { type: "text", text } }] }] *)
Definition prompt_result (description text : string) : JSValue :=
  JObj [("description", JStr description);
        ("messages",
         JArr [JObj [("role", JStr "user");
                     ("content",
                      JObj [("type", JStr "text"); ("text", JStr text)])]])].

(** The handler registered for [GetPromptRequestSchema]. *)
Definition getPrompt (fetchClient : FetchClient)
    (request : GetPromptRequest) : M JSValue :=
  console_error "Received GetPromptRequest:" ;;
  try_catch
    (if negb (truthy (get_prop_opt (prompt_arguments request) "url")) then
       throw (new_Error "URL is required")
     else
       url <- lift (get_prop (prompt_arguments request) "url") ;;
       try_catch
         (content <- fetchUrl fetchClient url ;;
          ret (prompt_result ("Contents of " ++ js_to_string url) content))
         (fun error =>
            ret (prompt_result ("Failed to fetch " ++ js_to_string url)
                   (error_message error))))
    (fun error =>
       console_error "Error handling prompt:" ;;
       throw error).

(** [capabilities: { tools: {} }] *)
Definition capabilities : list string := ["tools"].

(** [main]: the server is constructed with the tools capability only,
    so the registration of the first prompt handler throws. *)
Definition main (env : Env) (argv : list string) : M Running :=
  let userAgent :=
    if truthy (env_value env "MCP_USER_AGENT")
    then js_to_string (env_value env "MCP_USER_AGENT")
    else DEFAULT_USER_AGENT in
  console_error "Starting Fetch MCP Server..." ;;
  let fetchClient := mkClient userAgent in
  setRequestHandler capabilities "tools/call" ;;
  setRequestHandler capabilities "tools/list" ;;
  setRequestHandler capabilities "prompts/list" ;;
  setRequestHandler capabilities "prompts/get" ;;
  start_transport
    (mkServer "Fetch MCP Server" (callTool fetchClient) listTools
       (Some listPrompts) (Some (getPrompt fetchClient)))
    argv.

End Client.

End Fetch.

(* ================================================================= *)
(** ** template/index.ts (the Slack server the template ships) *)

Module Template.

Definition getUserProfileTool : Tool :=
  mkTool "slack_get_user_profile"
    "Get detailed profile information for a specific user"
    [("user_id", ("string", "The ID of the user"))] ["user_id"].

Definition tools : list Tool := [getUserProfileTool].

Section Client.

Variable ups : Upstream.

(** [`${new URLSearchParams(init)}`], a built-in. *)
Variable URLSearchParams_toString : list (string * JSValue) -> string.

Record SlackClient : Type := mkClient { botHeaders : list (string * string) }.

(** [constructor(botToken)] *)
Definition new_SlackClient (botToken : string) : SlackClient :=
  mkClient [("Authorization", "Bearer " ++ botToken);
            ("Content-Type", "application/json")].

Definition getUserProfile (this : SlackClient) (user_id : JSValue) : M JSValue :=
  let params :=
    URLSearchParams_toString
      [("user", user_id); ("include_labels", JStr "true")] in
  let url := JStr ("https://slack.com/api/users.profile.get?" ++ params) in
  response <- await ups (HttpFetch url (botHeaders this))
                (fun h => up_fetch ups h url (botHeaders this)) ;;
  await ups ResponseJson (fun _ => resp_json response).

(** The handler registered for [CallToolRequestSchema]. *)
Definition callTool (slackClient : SlackClient)
    (request : CallToolRequest) (extra : RequestHandlerExtra) : M JSValue :=
  console_error "Received CallToolRequest:" ;;
  try_catch
    (if negb (truthy (params_arguments request)) then
       throw (new_Error "No arguments provided")
     else
       let args := params_arguments request in
       if (params_name request =? "slack_get_user_profile")%string then
         user_id <- lift (get_prop args "user_id") ;;
         if negb (truthy user_id) then
           throw (new_Error "Missing required argument: user_id")
         else
           response <- getUserProfile slackClient user_id ;;
           ret (text_content (JSON_stringify response))
       else
         throw (new_Error ("Unknown tool: " ++ params_name request)))
    (fun error =>
       console_error "Error executing tool:" ;;
       ret (text_content
              (JSON_stringify (JObj [("error", JStr (error_message error))])))).

(** The handler registered for [ListToolsRequestSchema]. *)
Definition listTools : M JSValue :=
  console_error "Received ListToolsRequest" ;;
  ret (JObj [("tools", JArr (map tool_to_js tools))]).

(** [capabilities: { tools: {} }] *)
Definition capabilities : list string := ["tools"].

Definition main (env : Env) (argv : list string) : M Running :=
  let botToken := env_value env "SLACK_BOT_TOKEN" in
  let teamId := env_value env "SLACK_TEAM_ID" in
  if negb (truthy botToken) || negb (truthy teamId) then
    console_error
      "Please set SLACK_BOT_TOKEN and SLACK_TEAM_ID environment variables" ;;
    process_exit 1
  else
    console_error "Starting Slack MCP Server..." ;;
    let slackClient := new_SlackClient (js_to_string botToken) in
    setRequestHandler capabilities "tools/call" ;;
    setRequestHandler capabilities "tools/list" ;;
    start_transport
      (mkServer "Slack MCP Server" (callTool slackClient) listTools None None)
      argv.

End Client.

End Template.

(* ================================================================= *)
(** ** template/index.ts, second program: the older bigquery server

    The file carries, after the Slack server, an older bigquery server:
    two tools, no cancellation, the duplex transport only.  Its tool
    descriptors and its [dryRunQuery] are, word for word, those of
    [packages/bigquery/index.ts]. *)

Module TemplateBigQuery.

Definition tools : list Tool :=
  [BigQuery.executeQueryTool; BigQuery.dryRunQueryTool].

Section Client.

Variable ups : Upstream.
Variable JSON_parse : string -> Thrown + JSValue.
Variable costInUSD : JSValue -> JSValue.

Definition executeQuery (this : BigQuery.BigQueryClient) (query : JSValue)
    : M JSValue :=
  let options := JObj [("query", query)] in
  try_catch
    (job <- BigQuery.createQueryJob ups options ;;
     rows <- BigQuery.job_getQueryResults ups job ;;
     ret (JObj [("success", JBool true); ("rows", rows);
                ("jobId", job_id job)]))
    (fun error => ret (BigQuery.failure (error_message error))).

Definition dryRunQuery (this : BigQuery.BigQueryClient) (query : JSValue)
    : M JSValue :=
  BigQuery.dryRunQuery ups costInUSD this query.

(** The handler registered for [CallToolRequestSchema]. *)
Definition callTool (bigqueryClient : BigQuery.BigQueryClient)
    (request : CallToolRequest) (extra : RequestHandlerExtra) : M JSValue :=
  console_error "Received CallToolRequest:" ;;
  try_catch
    (if negb (truthy (params_arguments request)) then
       throw (new_Error "No arguments provided")
     else
       let args := params_arguments request in
       if (params_name request =? "bigquery_execute_query")%string then
         query <- lift (get_prop args "query") ;;
         if negb (truthy query) then
           throw (new_Error "Missing required argument: query")
         else
           response <- executeQuery bigqueryClient query ;;
           ret (text_content (JSON_stringify response))
       else if (params_name request =? "bigquery_dry_run_query")%string then
         query <- lift (get_prop args "query") ;;
         if negb (truthy query) then
           throw (new_Error "Missing required argument: query")
         else
           response <- dryRunQuery bigqueryClient query ;;
           ret (text_content (JSON_stringify response))
       else
         throw (new_Error ("Unknown tool: " ++ params_name request)))
    (fun error =>
       console_error "Error executing tool:" ;;
       ret (text_content
              (JSON_stringify (JObj [("error", JStr (error_message error))])))).

(** The handler registered for [ListToolsRequestSchema]. *)
Definition listTools : M JSValue :=
  console_error "Received ListToolsRequest" ;;
  ret (JObj [("tools", JArr (map tool_to_js tools))]).

(** [main]: there is no [--sse] branch, [process.argv] is not read. *)
Definition main (env : Env) (argv : list string) : M Running :=
  let credentials := env_value env "BIGQUERY_CREDENTIALS" in
  if negb (truthy credentials) then
    console_error "Please set BIGQUERY_CREDENTIALS environment variable" ;;
    process_exit 1
  else
    console_error "Starting BigQuery MCP Server..." ;;
    bigqueryClient <- BigQuery.new_BigQueryClient JSON_parse
                        (js_to_string credentials) ;;
    setRequestHandler BigQuery.capabilities "tools/call" ;;
    setRequestHandler BigQuery.capabilities "tools/list" ;;
    console_error "Connecting server to transport..." ;;
    emit (ServerConnect StdioTransport) ;;
    console_error "BigQuery MCP Server running on stdio" ;;
    ret (mkServer "BigQuery MCP Server" (callTool bigqueryClient) listTools
           None None,
         StdioTransport).

End Client.

End TemplateBigQuery.

(* ================================================================= *)
(** ** The unnamed source file: the older fetch server

    The fetch server without prompts; [fetchUrl] sends a Content-Type
    header as well.  Its call-tool handler and the closing block of its
    [main] are, word for word, those of [packages/fetch/index.ts]. *)

Module UnnamedFetch.

Definition tools : list Tool := [Fetch.fetchTool].

Section Client.

Variable ups : Upstream.

Definition fetchUrl (this : Fetch.FetchClient) (url : JSValue) : M string :=
  try_catch
    (let headers := [("User-Agent", Fetch.userAgent this);
                     ("Content-Type", "text/plain; charset=UTF-8")] in
     response <- await ups (HttpFetch url headers)
                   (fun h => up_fetch ups h url headers) ;;
     if negb (resp_ok response) then
       throw (new_Error ("Failed to fetch " ++ js_to_string url
                         ++ " - status code "
                         ++ number_to_string (resp_status response)))
     else
       await ups ResponseText (fun _ => resp_text response))
    (fun error =>
       throw (new_Error ("Failed to fetch " ++ js_to_string url ++ ": "
                         ++ thrown_to_string error))).

(** The handler registered for [CallToolRequestSchema]. *)
Definition callTool (fetchClient : Fetch.FetchClient)
    (request : CallToolRequest) (extra : RequestHandlerExtra) : M JSValue :=
  console_error "Received CallToolRequest:" ;;
  try_catch
    (if negb (truthy (params_arguments request)) then
       throw (new_Error "No arguments provided")
     else
       let args := params_arguments request in
       if (params_name request =? "fetch")%string then
         url <- lift (get_prop args "url") ;;
         if negb (truthy url) then
           throw (new_Error "URL is required")
         else
           content <- fetchUrl fetchClient url ;;
           ret (text_content
                  (JStr ("Contents of " ++ js_to_string url ++ ":"
                         ++ Fetch.newline ++ content)))
       else
         throw (new_Error ("Unknown tool: " ++ params_name request)))
    (fun error =>
       console_error "Error executing tool:" ;;
       ret (text_content
              (JSON_stringify (JObj [("error", JStr (error_message error))])))).

(** The handler registered for [ListToolsRequestSchema]. *)
Definition listTools : M JSValue :=
  console_error "Received ListToolsRequest" ;;
  ret (JObj [("tools", JArr (map tool_to_js tools))]).

Definition main (env : Env) (argv : list string) : M Running :=
  let userAgent :=
    if truthy (env_value env "MCP_USER_AGENT")
    then js_to_string (env_value env "MCP_USER_AGENT")
    else Fetch.DEFAULT_USER_AGENT in
  console_error "Starting Fetch MCP Server..." ;;
  let fetchClient := Fetch.mkClient userAgent in
  setRequestHandler Fetch.capabilities "tools/call" ;;
  setRequestHandler Fetch.capabilities "tools/list" ;;
  start_transport
    (mkServer "Fetch MCP Server" (callTool fetchClient) listTools None None)
    argv.

End Client.

End UnnamedFetch.

(* ================================================================= *)
(** ** scripts/create-mcp.js

    The scaffolding script talks to the terminal, the file system and a
    shell.  Its world is the trace of what it did; the host (what the
    user types, what the file system and the shell answer) is an oracle
    over that trace.  [path.join], [JSON.parse], [JSON.stringify] with an
    indentation, [String.prototype.replace] with a global pattern and
    [toUpperCase] are built-ins and stay variables. *)

Module CreateMcp.

Inductive ScriptEvent : Type :=
| RlQuestion (query : string)
| ExistsSync (path : string)
| ErrorLine (line : string)
| LogLine (line : string)
| Exited (code : Z)
| ExecSync (command : string)
| ReadFileSync (path : string)
| WriteFileSync (path : string) (data : JSValue)
| RlClose.

Record Host : Type := mkHost {
  host_answer : list ScriptEvent -> string;
  host_exists : list ScriptEvent -> string -> bool;
  host_exec : list ScriptEvent -> string -> Thrown + unit;
  host_read : list ScriptEvent -> string -> Thrown + string;
  host_write : list ScriptEvent -> string -> JSValue -> Thrown + unit
}.

Definition Script (A : Type) : Type :=
  list ScriptEvent -> Outcome A * list ScriptEvent.

Definition s_ret {A} (a : A) : Script A := fun h => (Ret a, h).

Definition s_bind {A B} (m : Script A) (k : A -> Script B) : Script B :=
  fun h =>
    match m h with
    | (Ret a, h') => k a h'
    | (Throw e, h') => (Throw e, h')
    | (Exit c, h') => (Exit c, h')
    end.

Definition s_lift {A} (r : Thrown + A) : Script A :=
  fun h => match r with
           | inl e => (Throw e, h)
           | inr a => (Ret a, h)
           end.

(** [try { m } catch (error) { handler error }] *)
Definition s_try_catch {A} (m : Script A) (handler : Thrown -> Script A)
    : Script A :=
  fun h =>
    match m h with
    | (Throw e, h') => handler e h'
    | r => r
    end.

(** [try { m } finally { f }]: [process.exit] ends the process at once,
    the [finally] block is not run. *)
Definition s_try_finally {A} (m : Script A) (f : Script unit) : Script A :=
  fun h =>
    match m h with
    | (Exit c, h') => (Exit c, h')
    | (r, h') =>
        match f h' with
        | (Ret _, h'') => (r, h'')
        | (Throw e, h'') => (Throw e, h'')
        | (Exit c, h'') => (Exit c, h'')
        end
    end.

Definition s_emit (e : ScriptEvent) : Script unit :=
  fun h => (Ret tt, (h ++ [e])%list).

(** An operation of the host: it is recorded, then it answers. *)
Definition s_call {A} (e : ScriptEvent)
    (answer : list ScriptEvent -> Thrown + A) : Script A :=
  fun h => match answer (h ++ [e])%list with
           | inl err => (Throw err, (h ++ [e])%list)
           | inr a => (Ret a, (h ++ [e])%list)
           end.

Definition s_exit {A} (code : Z) : Script A :=
  fun h => (Exit code, (h ++ [Exited code])%list).

Declare Scope script_scope.
Notation "x <- m ;; k" := (s_bind m (fun x => k))
  (at level 61, m at next level, right associativity) : script_scope.
Notation "m ;; k" := (s_bind m (fun _ => k))
  (at level 61, right associativity) : script_scope.
Local Open Scope script_scope.

(** [o[k] = v] on the properties of an object: an existing key keeps
    its place, a new key goes last. *)
Fixpoint assign (k : string) (v : JSValue) (props : list (string * JSValue))
    : list (string * JSValue) :=
  match props with
  | [] => [(k, v)]
  | (k', v') :: rest =>
      if (k' =? k)%string then (k, v) :: rest
      else (k', v') :: assign k v rest
  end.

(** [o.k = v] in sloppy mode: a TypeError on [undefined] and [null];
    on a primitive the assignment is dropped; on an array the property
    is set but is not an element, and [JSON.stringify], the only reader
    here, does not print it. *)
Definition set_prop (o : JSValue) (k : string) (v : JSValue)
    : Thrown + JSValue :=
  match o with
  | JUndefined =>
      inl (JSError "TypeError"
             ("Cannot set properties of undefined (setting '" ++ k ++ "')"))
  | JNull =>
      inl (JSError "TypeError"
             ("Cannot set properties of null (setting '" ++ k ++ "')"))
  | JObj props => inr (JObj (assign k v props))
  | _ => inr o
  end.

(** *** Code units

    A string of the language is a sequence of UTF-16 code units; here a
    string is the UTF-8 bytes of that sequence, a surrogate that stands
    alone taking the three bytes of its own value.  A character up to
    U+FFFF is one code unit on one to three bytes; a character above is
    two code units, a high and a low surrogate, on four bytes. *)

Fixpoint take (n : nat) (s : string) : string :=
  match n, s with
  | S n', String c rest => String c (take n' rest)
  | _, _ => ""
  end.

Fixpoint drop (n : nat) (s : string) : string :=
  match n, s with
  | S n', String _ rest => drop n' rest
  | _, _ => s
  end.

(** The number of bytes of the sequence a lead byte opens. *)
Definition sequence_length (lead : ascii) : nat :=
  let n := N_of_ascii lead in
  if (n <? 192)%N then 1
  else if (n <? 224)%N then 2
  else if (n <? 240)%N then 3
  else 4.

Definition byte (s : string) (i : nat) : N :=
  match String.get i s with
  | Some c => N_of_ascii c
  | None => 0%N
  end.

Definition continuation (n : N) : ascii :=
  ascii_of_N (N.lor 128 (N.land n 63)).

(** A code unit above U+07FF on three bytes, and back. *)
Definition encode3 (u : N) : string :=
  String (ascii_of_N (N.lor 224 (N.shiftr u 12)))
    (String (continuation (N.shiftr u 6)) (String (continuation u) "")).

Definition decode3 (s : string) : N :=
  N.lor (N.shiftl (N.land (byte s 0) 15) 12)
    (N.lor (N.shiftl (N.land (byte s 1) 63) 6) (N.land (byte s 2) 63)).

(** A character above U+FFFF on four bytes, and back. *)
Definition encode4 (cp : N) : string :=
  String (ascii_of_N (N.lor 240 (N.shiftr cp 18)))
    (String (continuation (N.shiftr cp 12))
       (String (continuation (N.shiftr cp 6)) (String (continuation cp) ""))).

Definition decode4 (s : string) : N :=
  N.lor (N.shiftl (N.land (byte s 0) 7) 18)
    (N.lor (N.shiftl (N.land (byte s 1) 63) 12)
       (N.lor (N.shiftl (N.land (byte s 2) 63) 6) (N.land (byte s 3) 63))).

(** The two code units of a character above U+FFFF. *)
Definition high_surrogate (cp : N) : N :=
  (55296 + N.shiftr (cp - 65536) 10)%N.

Definition low_surrogate (cp : N) : N :=
  (56320 + N.land (cp - 65536) 1023)%N.

Definition is_high (s : string) : bool :=
  (String.length s =? 3)%nat && (byte s 0 =? 237)%N
  && (55296 <=? decode3 s)%N && (decode3 s <? 56320)%N.

Definition is_low (s : string) : bool :=
  (String.length s =? 3)%nat && (byte s 0 =? 237)%N
  && (56320 <=? decode3 s)%N && (decode3 s <? 57344)%N.

(** [s.charAt(0)]: the first code unit. *)
Definition charAt0 (s : string) : string :=
  match s with
  | EmptyString => ""
  | String lead _ =>
      if (sequence_length lead <? 4)%nat then take (sequence_length lead) s
      else encode3 (high_surrogate (decode4 s))
  end.

(** [s.slice(1)]: all code units but the first. *)
Definition slice1 (s : string) : string :=
  match s with
  | EmptyString => ""
  | String lead _ =>
      if (sequence_length lead <? 4)%nat then drop (sequence_length lead) s
      else (encode3 (low_surrogate (decode4 s)) ++ drop 4 s)%string
  end.

(** [a + b] where [a] may end in a high surrogate: followed by a low
    surrogate it makes one character again. *)
Definition append (a b : string) : string :=
  let n := String.length a in
  let h := drop (n - 3) a in
  let l := take 3 b in
  if is_high h && is_low l then
    (take (n - 3) a
     ++ encode4 (65536 + N.shiftl (decode3 h - 55296) 10 + (decode3 l - 56320))
     ++ drop 3 b)%string
  else (a ++ b)%string.

Section Script.

Variable host : Host.

(** [path.join(...parts)] *)
Variable path_join : list string -> string.

(** [JSON.parse(text)] *)
Variable JSON_parse : string -> Thrown + JSValue.

(** [JSON.stringify(value, null, 2)] *)
Variable JSON_stringify_indented : JSValue -> JSValue.

(** [s.replace(/pattern/g, replacement)] for the three literal
    patterns of the script. *)
Variable replace_all : string -> string -> string -> string.

(** [s.toUpperCase()] *)
Variable toUpperCase : string -> string.

(** [question(query)]: resolves with what the user types. *)
Definition question (query : string) : Script string :=
  s_call (RlQuestion query) (fun h => inr (host_answer host h)).

Definition existsSync (path : string) : Script bool :=
  s_call (ExistsSync path) (fun h => inr (host_exists host h path)).

Definition execSync (command : string) : Script unit :=
  s_call (ExecSync command) (fun h => host_exec host h command).

Definition readFileSync (path : string) : Script string :=
  s_call (ReadFileSync path) (fun h => host_read host h path).

Definition writeFileSync (path : string) (data : JSValue) : Script unit :=
  s_call (WriteFileSync path data) (fun h => host_write host h path data).

Definition console_error (line : string) : Script unit := s_emit (ErrorLine line).
Definition console_log (line : string) : Script unit := s_emit (LogLine line).

(** [packageName.charAt(0).toUpperCase() + packageName.slice(1)] *)
Definition capitalized (packageName : string) : string :=
  append (toUpperCase (charAt0 packageName)) (slice1 packageName).

Definition createPackage : Script unit :=
  s_try_finally
    (s_try_catch
       (packageName <- question "Enter the package name (without @thlee/ prefix): " ;;
        let fullPackageName := "@thlee/" ++ packageName ++ "-mcp" in
        let packageDir := path_join ["packages"; packageName] in
        package_exists <- existsSync packageDir ;;
        (if package_exists : bool then
           console_error ("Package " ++ packageName ++ " already exists!") ;;
           s_exit 1
         else s_ret tt) ;;
        console_log "Copying template..." ;;
        execSync ("cp -r template " ++ packageDir) ;;
        let packageJsonPath := path_join [packageDir; "package.json"] in
        packageJsonText <- readFileSync packageJsonPath ;;
        packageJson <- s_lift (JSON_parse packageJsonText) ;;
        packageJson <- s_lift (set_prop packageJson "name" (JStr fullPackageName)) ;;
        packageJson <- s_lift (set_prop packageJson "description"
                                 (JStr (packageName ++ " MCP Server"))) ;;
        packageJson <- s_lift (set_prop packageJson "bin"
                                 (JObj [("mcp-server-" ++ packageName,
                                         JStr "dist/index.js")])) ;;
        writeFileSync packageJsonPath (JSON_stringify_indented packageJson) ;;
        let indexTsPath := path_join [packageDir; "index.ts"] in
        indexTs <- readFileSync indexTsPath ;;
        let indexTs :=
          replace_all "TemplateMCPServer"
            (capitalized packageName ++ "MCPServer") indexTs in
        writeFileSync indexTsPath (JStr indexTs) ;;
        let dockerfilePath := path_join [packageDir; "Dockerfile"] in
        dockerfile <- readFileSync dockerfilePath ;;
        let dockerfile :=
          replace_all "packages/template" ("packages/" ++ packageName)
            dockerfile in
        writeFileSync dockerfilePath (JStr dockerfile) ;;
        let readmePath := path_join [packageDir; "README.md"] in
        readme <- readFileSync readmePath ;;
        let readme := replace_all "Template" (capitalized packageName) readme in
        writeFileSync readmePath (JStr readme) ;;
        console_log (Fetch.newline ++ "Package " ++ fullPackageName
                     ++ " created successfully!") ;;
        console_log (Fetch.newline ++ "Next steps:") ;;
        console_log ("1. cd " ++ packageDir) ;;
        console_log "2. npm install" ;;
        console_log "3. Start implementing your MCP server")
       (fun error =>
          console_error "Error creating package:" ;;
          s_exit 1))
    (s_emit RlClose).

End Script.

End CreateMcp.

(* ================================================================= *)
(** ** Observing a run *)

(** Running a computation from the initial world. *)
Definition run {A} (m : M A) : Outcome A * World := m init_world.
Definition result {A} (m : M A) : Outcome A := fst (run m).
Definition events {A} (m : M A) : list Event := trace (snd (run m)).

(** The events a step added: the trace of [w'] past the trace of [w]. *)
Definition since (w w' : World) : list Event :=
  skipn (List.length (trace w)) (trace w').

(** [{ content: [{ type: "text", text: JSON.stringify({ error: message }) }] }] *)
Definition error_envelope (message : string) : JSValue :=
  text_content (JSON_stringify (JObj [("error", JStr message)])).

(** Kinds of events, for counting. *)
Definition is_call (e : Event) : bool :=
  match e with Call _ => true | _ => false end.

Definition is_start (e : Event) : bool :=
  match e with Call (CreateQueryJob _) => true | _ => false end.

Definition is_cancel (e : Event) : bool :=
  match e with Call (JobCancel _) => true | _ => false end.

Definition is_add (e : Event) : bool :=
  match e with AddEventListener _ _ => true | _ => false end.

Definition is_remove (e : Event) : bool :=
  match e with RemoveEventListener _ => true | _ => false end.

Definition count (p : Event -> bool) (evs : list Event) : nat :=
  List.length (filter p evs).

(** The world [w] after the events [evs]. *)
Definition after (w : World) (evs : list Event) : World :=
  {| aborted := aborted w; listeners := listeners w;
     next_closure := next_closure w; transport := transport w;
     trace := trace w ++ evs |}.

(** A call-tool request turned down before any client method runs: the
    two diagnostic lines and the error envelope. *)
Definition rejected (message : string) (w : World) : Outcome JSValue * World :=
  (Ret (error_envelope message),
   after w [ConsoleError "Received CallToolRequest:";
            ConsoleError "Error executing tool:"]).

(** The three programs. *)
Inductive Service : Type := BigQueryService | FetchService | TemplateService.

Record Clients : Type := mkClients {
  bigqueryClient : BigQuery.BigQueryClient;
  fetchClient : Fetch.FetchClient;
  slackClient : Template.SlackClient
}.

(** The call-tool handler and the [main] of each program; the
    variables stand for the world outside and the platform's built-ins. *)
Section Services.

Variable ups : Upstream.
Variable JSON_parse : string -> Thrown + JSValue.
Variable costInUSD : JSValue -> JSValue.
Variable URLSearchParams_toString : list (string * JSValue) -> string.

Definition callTool_of (s : Service) (clients : Clients)
    : CallToolRequest -> RequestHandlerExtra -> M JSValue :=
  match s with
  | BigQueryService => BigQuery.callTool ups costInUSD (bigqueryClient clients)
  | FetchService => Fetch.callTool ups (fetchClient clients)
  | TemplateService =>
      Template.callTool ups URLSearchParams_toString (slackClient clients)
  end.

Definition main_of (s : Service) : Env -> list string -> M Running :=
  match s with
  | BigQueryService => BigQuery.main ups JSON_parse costInUSD
  | FetchService => Fetch.main ups
  | TemplateService => Template.main ups URLSearchParams_toString
  end.


End Services.

(** The tools each program lists. *)
Definition tools_of (s : Service) : list Tool :=
  match s with
  | BigQueryService => BigQuery.tools
  | FetchService => Fetch.tools
  | TemplateService => Template.tools
  end.

(* ================================================================= *)
(** ** The vocabulary of the statements *)

(** *** Specifications of computations *)

(** [post es p Q E X m]: from any world, [m] appends to the trace the
    events [es] followed by events that all satisfy [p]; when it
    returns [a] then [Q a], when it throws [e] then [E e], when it exits
    with [c] then [X c]. *)
Definition post {A} (es : list Event) (p : Event -> bool)
    (Q : A -> Prop) (E : Thrown -> Prop) (X : Z -> Prop) (m : M A) : Prop :=
  forall w, exists evs,
    trace (snd (m w)) = (trace w ++ es ++ evs)%list
    /\ forallb p evs = true
    /\ match fst (m w) with
       | Ret a => Q a
       | Throw e => E e
       | Exit c => X c
       end.

Definition any {A} : A -> Prop := fun _ => True.
Definition never {A} : A -> Prop := fun _ => False.

(** The events code reached from a request handler can emit: lines on
    the standard error, calls on the upstream clients, the listener
    bookkeeping, the delivery of the abort. *)
Definition handler_event (e : Event) : bool :=
  match e with
  | ConsoleError _ | Call _ | AddEventListener _ _
  | RemoveEventListener _ | AbortDelivered => true
  | _ => false
  end.

(** A text envelope: [{ content: [{ type: "text", text }] }]. *)
Definition is_text_envelope (v : JSValue) : Prop :=
  exists text, v = text_content text.

(** *** Channels and transports *)

Definition kind_eqb (a b : TransportKind) : bool :=
  match a, b with
  | StdioTransport, StdioTransport | SSETransport, SSETransport => true
  | _, _ => false
  end.

Definition channel_eqb (a b : Channel) : bool :=
  match a, b with
  | Stdout, Stdout | Stderr, Stderr | HttpStream, HttpStream => true
  | _, _ => false
  end.

(** A diagnostic line that stays off the channel of the protocol. *)
Definition off_protocol (kind : TransportKind) (e : Event) : bool :=
  match diagnostic_channel e with
  | Some ch => negb (channel_eqb ch (protocol_channel kind))
  | None => true
  end.

(** Protocol output that goes through the transport chosen at startup. *)
Definition on_transport (kind : TransportKind) (e : Event) : bool :=
  match e with
  | TransportSend k _ | ServerConnect k => kind_eqb k kind
  | _ => true
  end.

Definition process_event (kind : TransportKind) (e : Event) : bool :=
  off_protocol kind e && on_transport kind e.


Definition is_exit (e : Event) : bool :=
  match e with ProcessExit _ => true | _ => false end.

(** A server all of whose handlers emit handler events only and never
    exit the process. *)
Definition server_ok (server : Server) : Prop :=
  (forall request extra,
      post [] handler_event any any never (onCallTool server request extra))
  /\ post [] handler_event any any never (onListTools server)
  /\ (forall h, onListPrompts server = Some h ->
                post [] handler_event any any never h)
  /\ (forall h request, onGetPrompt server = Some h ->
                        post [] handler_event any any never (h request)).

(** *** Requests and failures *)

(** The message each program throws when a required field is falsy. *)
Definition validation_message (s : Service) (f : string) : string :=
  match s with
  | FetchService => "URL is required"
  | BigQueryService | TemplateService => "Missing required argument: " ++ f
  end.

(** A wait for the query results. *)
Definition is_results (e : Event) : bool :=
  match e with Call (JobGetQueryResults _) => true | _ => false end.

(** What [executeQuery]'s [catch] reports for a thrown value. *)
Definition reported (e : Thrown) : string :=
  if is_AbortError e then "Request was cancelled" else error_message e.

(** The first line a call-tool handler logs. *)
Definition received : Event := ConsoleError "Received CallToolRequest:".

(** The upstream start operation of [executeQuery]. *)
Definition start_of (query : JSValue) : Event :=
  Call (CreateQueryJob (JObj [("query", query)])).

(** A request for the cancellable tool. *)
Definition execute_request (props : list (string * JSValue)) : CallToolRequest :=
  mkCallTool "bigquery_execute_query" (JObj props).

(** Every cancellation request in [e] is made on [job]. *)
Definition cancel_targets (job : Job) (e : Event) : Prop :=
  match e with
  | Call (JobCancel j) => j = job
  | _ => True
  end.

(** The history at which [createQueryJob] settles when the request was
    not cancelled on arrival: the client may abort while the call is
    pending, and no listener is registered yet. *)
Definition history_at_creation (ups : Upstream) (w : World) (query : JSValue)
    : list Event :=
  if up_abort ups (trace w ++ [received; start_of query])
  then trace w ++ [received; start_of query; AbortDelivered]
  else trace w ++ [received; start_of query].







(** *** Inputs of the concrete runs *)

(** A server whose handlers do nothing. *)
Definition no_handlers : Server :=
  mkServer "none" (fun _ _ => ret JNull) (ret JNull) None None.

Definition sample_job : Job := mkJob (JStr "job_1") (JObj []).

Definition sample_response : Response :=
  mkResponse true 200 (inr "<html>ok</html>") (inr (JObj [("ok", JBool true)])).

(** An upstream that accepts everything; the client never aborts. *)
Definition accepting : Upstream :=
  mkUpstream (fun _ _ => inr sample_job)
             (fun _ _ => inr tt)
             (fun _ _ => inr (JArr []))
             (fun _ _ => inr (JObj []))
             (fun _ _ _ => inr sample_response)
             (fun _ => false).

(** The same, with a client that aborts while the query results are
    awaited. *)
Definition aborting_while_waiting : Upstream :=
  mkUpstream (fun _ _ => inr sample_job)
             (fun _ _ => inr tt)
             (fun _ _ => inr (JArr []))
             (fun _ _ => inr (JObj []))
             (fun _ _ _ => inr sample_response)
             (fun h => existsb is_results h).

(** An upstream that rejects everything with [e]. *)
Definition rejecting (e : Thrown) : Upstream :=
  mkUpstream (fun _ _ => inl e) (fun _ _ => inl e) (fun _ _ => inl e)
             (fun _ _ => inl e) (fun _ _ _ => inl e) (fun _ => false).

Definition boom : Thrown := new_Error "boom".



Definition sample_cost : JSValue -> JSValue := fun _ => JNum 0.

Definition sample_params : list (string * JSValue) -> string :=
  fun _ => "user=U1&include_labels=true".

Definition sample_parse : string -> Thrown + JSValue := fun _ => inr (JObj []).

Definition sample_clients : Clients :=
  mkClients (BigQuery.mkClient (JObj []))
            (Fetch.mkClient Fetch.DEFAULT_USER_AGENT)
            (Template.new_SlackClient "xoxb-1").

Definition sample_extra : RequestHandlerExtra := mkExtra RequestSignal.

Definition select_one : list (string * JSValue) := [("query", JStr "SELECT 1")].

(** The world in which a request arrives already cancelled. *)
Definition cancelled_on_arrival : World := snd (fresh_signal true init_world).




(** *** Vocabulary of the further properties *)


(** An object, as opposed to a primitive, an array, [null] or
    [undefined]. *)
Definition is_object (v : JSValue) : bool :=
  match v with JObj _ => true | _ => false end.



(** The session a sequence of inputs leaves behind: the one opened by
    the last request on [/sse], if any. *)
Fixpoint last_session (inputs : list Input)
    (current : option SSEServerTransport) : option SSEServerTransport :=
  match inputs with
  | [] => current
  | HttpGetSse res :: rest => last_session rest (Some (mkSSE "/messages" res))
  | _ :: rest => last_session rest current
  end.

(** A computation that leaves the [transport] variable alone. *)
Definition keeps_transport {A} (m : M A) : Prop :=
  forall w, transport (snd (m w)) = transport w.

(** A server none of whose handlers touches the [transport] variable. *)
Definition server_keeps_transport (server : Server) : Prop :=
  (forall request extra, keeps_transport (onCallTool server request extra))
  /\ keeps_transport (onListTools server)
  /\ (forall h, onListPrompts server = Some h -> keeps_transport h)
  /\ (forall h request, onGetPrompt server = Some h ->
                        keeps_transport (h request)).

(** *** The scaffolding script *)

Definition is_close (e : CreateMcp.ScriptEvent) : bool :=
  match e with CreateMcp.RlClose => true | _ => false end.

Definition is_exited (e : CreateMcp.ScriptEvent) : bool :=
  match e with CreateMcp.Exited _ => true | _ => false end.

Definition is_error_line (e : CreateMcp.ScriptEvent) : bool :=
  match e with CreateMcp.ErrorLine _ => true | _ => false end.

(** The paths written, the paths read and the shell commands run, in
    order. *)
Fixpoint written (evs : list CreateMcp.ScriptEvent) : list string :=
  match evs with
  | [] => []
  | CreateMcp.WriteFileSync path _ :: rest => path :: written rest
  | _ :: rest => written rest
  end.



(** The prompt of the script. *)
Definition name_prompt : string :=
  "Enter the package name (without @thlee/ prefix): ".

(** What the user answers to the prompt. *)
Definition answered (host : CreateMcp.Host) : string :=
  CreateMcp.host_answer host [CreateMcp.RlQuestion name_prompt].

(** A host on which nothing fails: the package does not exist yet, the
    shell and the writes succeed, and each file reads as [content] says. *)
Definition cooperative (host : CreateMcp.Host) (content : string -> string)
    : Prop :=
  (forall h p, CreateMcp.host_exists host h p = false)
  /\ (forall h c, CreateMcp.host_exec host h c = inr tt)
  /\ (forall h p, CreateMcp.host_read host h p = inr (content p))
  /\ (forall h p d, CreateMcp.host_write host h p d = inr tt).

(** *** Inputs of the further concrete runs *)

Definition example_url : list (string * JSValue) :=
  [("url", JStr "https://example.com")].

(** An environment for the template program, with the given team id. *)
Definition slack_env (teamId : string) : Env :=
  fun name =>
    if (name =? "SLACK_BOT_TOKEN")%string then Some "xoxb-1"
    else if (name =? "SLACK_TEAM_ID")%string then Some teamId
    else None.

(** An environment for the bigquery program, with the given credentials. *)
Definition bigquery_env (credentials : string) : Env :=
  fun name =>
    if (name =? "BIGQUERY_CREDENTIALS")%string then Some credentials else None.

(** A [JSON.parse] that rejects everything. *)
Definition failing_parse : string -> Thrown + JSValue :=
  fun _ => inl (JSError "SyntaxError" "Unexpected token").

(** A host on which nothing fails; the user answers "weather". *)
Definition sample_host : CreateMcp.Host :=
  CreateMcp.mkHost (fun _ => "weather") (fun _ _ => false)
    (fun _ _ => inr tt) (fun _ p => inr ("contents of " ++ p))
    (fun _ _ _ => inr tt).

(** The same, with the package directory already there. *)
Definition occupied_host : CreateMcp.Host :=
  CreateMcp.mkHost (fun _ => "weather") (fun _ _ => true)
    (fun _ _ => inr tt) (fun _ p => inr ("contents of " ++ p))
    (fun _ _ _ => inr tt).

Definition sample_path_join : list string -> string := join "/".

Definition sample_package_json : list (string * JSValue) :=
  [("name", JStr "template-mcp"); ("version", JStr "1.0.0")].

Definition script_parse : string -> Thrown + JSValue :=
  fun _ => inr (JObj sample_package_json).

Definition sample_replace : string -> string -> string -> string :=
  fun _ _ s => s.

Definition sample_upper : string -> string := fun s => s.

(** A host whose user answers with a name that starts with a letter
    outside ASCII, and whose files hold the text to be replaced. *)
Definition named_files (p : string) : string :=
  if (p =? "packages/ωmega/index.ts")%string then "TemplateMCPServer"
  else if (p =? "packages/ωmega/README.md")%string then "Template"
  else if (p =? "packages/ωmega/Dockerfile")%string then "packages/template"
  else "{}".

Definition greek_host : CreateMcp.Host :=
  CreateMcp.mkHost (fun _ => "ωmega") (fun _ _ => false)
    (fun _ _ => inr tt) (fun _ p => inr (named_files p))
    (fun _ _ _ => inr tt).

(** A replacement that knows the case of a text that is the pattern. *)
Definition whole_replace : string -> string -> string -> string :=
  fun pattern replacement s =>
    if (s =? pattern)%string then replacement else s.

(** An upper case that knows the letter omega. *)
Definition greek_upper : string -> string :=
  fun s => if (s =? "ω")%string then "Ω" else s.

(* ================================================================= *)
(** ** Lemmas on the runtime *)

Lemma since_app w w' evs :
  trace w' = (trace w ++ evs)%list -> since w w' = evs.
Proof.
  unfold since; intros ->.
  rewrite skipn_app, skipn_all, Nat.sub_diag; reflexivity.
Qed.

Ltac unfold_m :=
  unfold rejected, after, bind, try_catch, try_finally, ret, throw, lift,
    console_error, console_log, emit, get_world, process_exit, new_closure,
    set_transport, fresh_signal in *.

Ltac pick_tool H :=
  cbn in H;
  repeat match type of H with
         | _ \/ _ => destruct H as [H | H]
         | False => destruct H
         end; subst.

Ltac norm_trace := repeat rewrite <- app_assoc; cbn [app].

(* ================================================================= *)
(** ** No arguments object *)

Section NoArguments.

Variable ups : Upstream.
Variable costInUSD : JSValue -> JSValue.
Variable URLSearchParams_toString : list (string * JSValue) -> string.

Lemma bigquery_falsy_arguments client name args extra w :
  truthy args = false ->
  BigQuery.callTool ups costInUSD client (mkCallTool name args) extra w
  = rejected "No arguments provided" w.
Proof.
  intros H. unfold BigQuery.callTool. unfold_m.
  cbn. rewrite H. cbn. norm_trace. reflexivity.
Qed.

Lemma fetch_falsy_arguments client name args extra w :
  truthy args = false ->
  Fetch.callTool ups client (mkCallTool name args) extra w
  = rejected "No arguments provided" w.
Proof.
  intros H. unfold Fetch.callTool. unfold_m.
  cbn. rewrite H. cbn. norm_trace. reflexivity.
Qed.

Lemma template_falsy_arguments client name args extra w :
  truthy args = false ->
  Template.callTool ups URLSearchParams_toString client (mkCallTool name args) extra w
  = rejected "No arguments provided" w.
Proof.
  intros H. unfold Template.callTool. unfold_m.
  cbn. rewrite H. cbn. norm_trace. reflexivity.
Qed.

(** C6. In each of the three programs, a call-tool request whose
    [arguments] is absent ([undefined]) or [null] is answered, for any
    tool name, registered or not, by the normal envelope carrying
    [{"error":"No arguments provided"}]; the handler returns (it does not
    throw), and the only effects are the two diagnostic lines: no client
    method is called, and the tool name is never looked at. *)
Theorem C6_no_arguments_provided :
  forall s clients name extra w,
    callTool_of ups costInUSD URLSearchParams_toString s clients
      (mkCallTool name JUndefined) extra w
    = (Ret (error_envelope "No arguments provided"),
       after w [ConsoleError "Received CallToolRequest:";
                ConsoleError "Error executing tool:"])
    /\ callTool_of ups costInUSD URLSearchParams_toString s clients
         (mkCallTool name JNull) extra w
       = (Ret (error_envelope "No arguments provided"),
          after w [ConsoleError "Received CallToolRequest:";
                   ConsoleError "Error executing tool:"]).
Proof.
  intros [] clients name extra w; split;
    first [ apply bigquery_falsy_arguments
          | apply fetch_falsy_arguments
          | apply template_falsy_arguments ]; reflexivity.
Qed.

End NoArguments.

(* ================================================================= *)
(** ** The push-stream endpoints *)

(** C8. While no transport handle is stored ([transport] is [null]), a
    message posted to [/messages] does nothing: the world, its trace
    included, is left as it was (so no handler was invoked and nothing
    was written anywhere), the callback returns normally, and a session
    opened afterwards starts from the same world as if the message had
    never been posted: nothing was kept for it. *)
Theorem C8_post_without_session_is_noop :
  forall server req res w,
    transport w = None ->
    app_post_messages server req w = (Ret tt, w)
    /\ since w (snd (app_post_messages server req w)) = []
    /\ (app_post_messages server req ;; app_get_sse server res) w
       = app_get_sse server res w
    /\ (forall rest,
          serve (server, SSETransport) (HttpPostMessages req :: rest) w
          = serve (server, SSETransport) rest w).
Proof.
  intros server req res w H.
  assert (E : app_post_messages server req w = (Ret tt, w)).
  { unfold app_post_messages. unfold_m. rewrite H. reflexivity. }
  repeat split.
  - exact E.
  - rewrite E. apply since_app. cbn. symmetry. apply app_nil_r.
  - unfold bind at 1. rewrite E. reflexivity.
  - intros rest. cbn [serve step fst snd]. unfold bind at 1.
    rewrite E. reflexivity.
Qed.

Lemma C8_witness :
  transport init_world = None
  /\ app_post_messages no_handlers (mkInbound ListTools false) init_world
     = (Ret tt, init_world).
Proof.
  split; [reflexivity|].
  apply (C8_post_without_session_is_noop no_handlers
           (mkInbound ListTools false) 0%nat init_world).
  reflexivity.
Defined.

(* ================================================================= *)
(** ** A program logic for the monad *)

Section Logic.

Context {A B : Type}.
Variable p : Event -> bool.
Variable E : Thrown -> Prop.
Variable X : Z -> Prop.

Lemma post_weaken es (Q Q' : A -> Prop) (E' : Thrown -> Prop) (X' : Z -> Prop) m :
  post es p Q' E' X' m ->
  (forall a, Q' a -> Q a) -> (forall e, E' e -> E e) -> (forall c, X' c -> X c) ->
  post es p Q E X m.
Proof.
  intros H HQ HE HX w. destruct (H w) as (evs & T & F & O).
  exists evs. repeat split; trivial.
  destruct (fst (m w)); auto.
Qed.

Lemma post_ret (Q : A -> Prop) a : Q a -> post [] p Q E X (ret a).
Proof.
  intros H w. exists []. cbn. rewrite app_nil_r. auto.
Qed.

Lemma post_throw (Q : A -> Prop) e : E e -> post [] p Q E X (throw e).
Proof.
  intros H w. exists []. cbn. rewrite app_nil_r. auto.
Qed.

Lemma post_lift (Q : A -> Prop) r :
  (forall a, r = inr a -> Q a) -> (forall e, r = inl e -> E e) ->
  post [] p Q E X (lift r).
Proof.
  intros HQ HE. destruct r; [apply post_throw | apply post_ret]; auto.
Qed.

Lemma post_bind es (Q1 : A -> Prop) (Q : B -> Prop) m (k : A -> M B) :
  post es p Q1 E X m ->
  (forall a, Q1 a -> post [] p Q E X (k a)) ->
  post es p Q E X (bind m k).
Proof.
  intros Hm Hk w. destruct (Hm w) as (evs1 & T1 & F1 & O1).
  unfold bind. destruct (m w) as [[a|e|c] w1]; cbn in *.
  - destruct (Hk a O1 w1) as (evs2 & T2 & F2 & O2).
    exists (evs1 ++ evs2)%list. rewrite T2, T1, forallb_app, F1, F2.
    cbn. rewrite <- !app_assoc. auto.
  - exists evs1. auto.
  - exists evs1. auto.
Qed.

Lemma post_try_catch es (E1 : Thrown -> Prop) (Q : A -> Prop) m h :
  post es p Q E1 X m ->
  (forall e, E1 e -> post [] p Q E X (h e)) ->
  post es p Q E X (try_catch m h).
Proof.
  intros Hm Hh w. destruct (Hm w) as (evs1 & T1 & F1 & O1).
  unfold try_catch. destruct (m w) as [[a|e|c] w1]; cbn in *.
  - exists evs1. auto.
  - destruct (Hh e O1 w1) as (evs2 & T2 & F2 & O2).
    exists (evs1 ++ evs2)%list. rewrite T2, T1, forallb_app, F1, F2.
    cbn. rewrite <- !app_assoc. auto.
  - exists evs1. auto.
Qed.

Lemma post_try_finally es (Q : A -> Prop) m f :
  post es p Q E X m ->
  post [] p any E X f ->
  post es p Q E X (try_finally m f).
Proof.
  intros Hm Hf w. destruct (Hm w) as (evs1 & T1 & F1 & O1).
  unfold try_finally. destruct (m w) as [[a|e|c] w1]; cbn in *.
  - destruct (Hf w1) as (evs2 & T2 & F2 & O2).
    exists (evs1 ++ evs2)%list.
    destruct (f w1) as [[u|e'|c'] w2]; cbn in *;
      rewrite T2, T1, forallb_app, F1, F2; cbn; rewrite <- !app_assoc; auto.
  - destruct (Hf w1) as (evs2 & T2 & F2 & O2).
    exists (evs1 ++ evs2)%list.
    destruct (f w1) as [[u|e'|c'] w2]; cbn in *;
      rewrite T2, T1, forallb_app, F1, F2; cbn; rewrite <- !app_assoc; auto.
  - exists evs1. auto.
Qed.

End Logic.

Section LogicPrimitives.

Variable p : Event -> bool.
Variable E : Thrown -> Prop.
Variable X : Z -> Prop.

Lemma post_emit (Q : unit -> Prop) e :
  p e = true -> Q tt -> post [] p Q E X (emit e).
Proof.
  intros He HQ w. exists [e]. cbn. rewrite He. auto.
Qed.

(** The first event of a computation that starts by emitting it. *)
Lemma post_first {B} es (Q : B -> Prop) e (k : unit -> M B) :
  post es p Q E X (k tt) -> post (e :: es) p Q E X (bind (emit e) k).
Proof.
  intros Hk w. unfold bind, emit. cbn.
  destruct (Hk (after w [e])) as (evs & T & F & O).
  exists evs. unfold after in *. cbn in *.
  rewrite T, <- app_assoc. auto.
Qed.

Lemma post_get_world (Q : World -> Prop) :
  (forall w, Q w) -> post [] p Q E X get_world.
Proof.
  intros H w. exists []. cbn. rewrite app_nil_r. auto.
Qed.

Lemma post_process_exit {A} (Q : A -> Prop) c :
  p (ProcessExit c) = true -> X c -> post [] p Q E X (process_exit c).
Proof.
  intros He HX w. exists [ProcessExit c]. cbn. rewrite He. auto.
Qed.

Lemma post_new_closure (Q : nat -> Prop) :
  (forall n, Q n) -> post [] p Q E X new_closure.
Proof.
  intros H w. exists []. cbn. rewrite app_nil_r. auto.
Qed.

Lemma post_set_transport (Q : unit -> Prop) t :
  Q tt -> post [] p Q E X (set_transport t).
Proof.
  intros H w. exists []. cbn. rewrite app_nil_r. auto.
Qed.

Lemma post_fresh_signal (Q : unit -> Prop) b :
  Q tt -> post [] p Q E X (fresh_signal b).
Proof.
  intros H w. exists []. cbn. rewrite app_nil_r. auto.
Qed.

Lemma post_signal_aborted (Q : bool -> Prop) s :
  (forall b, Q b) -> post [] p Q E X (signal_aborted s).
Proof.
  intros H w. exists []. destruct s as [[]|]; cbn; rewrite app_nil_r; auto.
Qed.

Lemma post_addEventListener (Q : unit -> Prop) s n c o :
  p (AddEventListener n o) = true -> Q tt ->
  post [] p Q E X (addEventListener s n c o).
Proof.
  intros He HQ w. destruct s as [[]|]; cbn.
  - exists [AddEventListener n o]. cbn. rewrite He. auto.
  - exists []. cbn. rewrite app_nil_r. auto.
Qed.

Lemma post_removeEventListener (Q : unit -> Prop) s n :
  p (RemoveEventListener n) = true -> Q tt ->
  post [] p Q E X (removeEventListener s n).
Proof.
  intros He HQ w. destruct s as [[]|]; cbn.
  - exists [RemoveEventListener n]. cbn. rewrite He. auto.
  - exists []. cbn. rewrite app_nil_r. auto.
Qed.

End LogicPrimitives.

Lemma post_events {A} es (p p' : Event -> bool) (Q : A -> Prop) E X m :
  post es p Q E X m ->
  (forall e, p e = true -> p' e = true) ->
  post es p' Q E X m.
Proof.
  intros H Hp w. destruct (H w) as (evs & T & F & O).
  exists evs. repeat split; trivial.
  rewrite forallb_forall in *. auto.
Qed.

Lemma post_unprefix {A} es (p : Event -> bool) (Q : A -> Prop) E X m :
  post es p Q E X m -> forallb p es = true -> post [] p Q E X m.
Proof.
  intros H Hes w. destruct (H w) as (evs & T & F & O).
  exists (es ++ evs)%list. rewrite forallb_app, Hes, F. auto.
Qed.

Lemma post_bind_any {A B} es p (Q : B -> Prop) E X (m : M A) k :
  post es p any E X m ->
  (forall a, post [] p Q E X (k a)) ->
  post es p Q E X (bind m k).
Proof. intros; eapply post_bind; eauto. Qed.

Lemma post_catch_any {A} es p (Q : A -> Prop) E X m h :
  post es p Q any X m ->
  (forall e, post [] p Q E X (h e)) ->
  post es p Q E X (try_catch m h).
Proof. intros; eapply post_try_catch; eauto. Qed.

Lemma any_intro {A} (a : A) : any a.
Proof. exact I. Qed.

Ltac post_leaf :=
  first
    [ apply post_ret
    | apply post_throw
    | apply post_lift; intros
    | apply post_emit; [reflexivity|]
    | apply post_get_world; intros
    | apply post_new_closure; intros
    | apply post_set_transport
    | apply post_fresh_signal
    | apply post_signal_aborted; intros
    | apply post_addEventListener; [reflexivity|]
    | apply post_removeEventListener; [reflexivity|]
    | apply post_process_exit; [reflexivity|] ].

Ltac post_node :=
  lazymatch goal with
  | |- post _ _ _ _ _ (bind _ _) => apply post_bind_any; [|intros]
  | |- post _ _ _ _ _ (try_catch _ _) => apply post_catch_any; [|intros]
  | |- post _ _ _ _ _ (try_finally _ _) => apply post_try_finally
  | |- post _ _ _ _ _ (if ?b then _ else _) => destruct b
  | |- post _ _ _ _ _ (match ?x with _ => _ end) => destruct x
  | |- post _ _ _ _ _ (console_error _) => unfold console_error
  | |- post _ _ _ _ _ (console_log _) => unfold console_log
  end.

Ltac post_done :=
  try solve [ exact I | apply any_intro | eexists; reflexivity | assumption ].

Section AwaitLogic.

Variable ups : Upstream.

Lemma post_run_callback c :
  post [] handler_event any any never (run_callback ups c).
Proof.
  destruct c as [job]. unfold run_callback.
  repeat first [ post_node | post_leaf; post_done ].
Qed.

Lemma post_run_callbacks ls :
  post [] handler_event any any never (run_callbacks ups ls).
Proof.
  induction ls as [|l ls IH]; cbn [run_callbacks].
  - apply post_ret; exact I.
  - apply post_bind_any; [apply post_run_callback | intros; exact IH].
Qed.

Lemma post_deliver_abort :
  post [] handler_event any any never (deliver_abort ups).
Proof.
  intros w. unfold deliver_abort. destruct (aborted w) eqn:Ha.
  - exists []. cbn. rewrite app_nil_r. repeat split; exact I.
  - match goal with |- context [run_callbacks ups ?ls ?w0] =>
      destruct (post_run_callbacks ls w0) as (evs & T & F & O) end.
    exists (AbortDelivered :: evs). cbn in *.
    rewrite T, <- app_assoc. auto.
Qed.

(** An [await]: the call first, then events of the handler kind; it
    returns or throws. *)
Lemma post_await {A} call (answer : list Event -> Thrown + A) :
  post [Call call] handler_event any any never (await ups call answer).
Proof.
  unfold await. apply post_first.
  repeat first [ post_node | apply post_deliver_abort | post_leaf; post_done ].
Qed.

Lemma post_await_nil {A} call (answer : list Event -> Thrown + A) :
  post [] handler_event any any never (await ups call answer).
Proof. eapply post_unprefix; [apply post_await | reflexivity]. Qed.

End AwaitLogic.

Lemma post_bind_ret {A B} es p (Q : B -> Prop) E X (a : A) (k : A -> M B) :
  post es p Q E X (k a) -> post es p Q E X (bind (ret a) k).
Proof. intros H w. exact (H w). Qed.

Lemma post_never {A} es p (Q : A -> Prop) E X m :
  post es p Q never never m -> post es p Q E X m.
Proof.
  intros H. eapply post_weaken; [exact H | auto | |]; intros ? [].
Qed.

Lemma post_no_exit {A} es p (Q : A -> Prop) E X m :
  post es p Q E never m -> post es p Q E X m.
Proof.
  intros H. eapply post_weaken; [exact H | auto | auto |]; intros ? [].
Qed.

Ltac post_auto ups :=
  repeat first
    [ post_node
    | apply post_no_exit; apply (post_await_nil ups)
    | post_leaf; post_done ].

Ltac eval_eqb :=
  repeat match goal with
         | |- context [String.eqb ?a ?b] =>
             let v := eval vm_compute in (String.eqb a b) in
             change (String.eqb a b) with v
         end;
  cbv iota.

Section ClientLogic.

Variable ups : Upstream.
Variable JSON_parse : string -> Thrown + JSValue.
Variable costInUSD : JSValue -> JSValue.
Variable URLSearchParams_toString : list (string * JSValue) -> string.

Lemma post_executeQuery client query signal E X :
  post [Call (CreateQueryJob (JObj [("query", query)]))] handler_event any E X
    (BigQuery.executeQuery ups client query signal).
Proof.
  apply post_never. unfold BigQuery.executeQuery.
  apply post_catch_any; [|intros; post_auto ups].
  apply post_bind_any; [apply post_no_exit; apply post_await|intros].
  unfold BigQuery.job_cancel, BigQuery.job_getQueryResults.
  post_auto ups.
Qed.

Lemma post_dryRunQuery client query E X :
  post [Call (CreateQueryJob (JObj [("query", query); ("dryRun", JBool true)]))]
    handler_event any E X
    (BigQuery.dryRunQuery ups costInUSD client query).
Proof.
  apply post_never. unfold BigQuery.dryRunQuery.
  apply post_catch_any; [|intros; post_auto ups].
  apply post_bind_any; [apply post_no_exit; apply post_await|intros].
  post_auto ups.
Qed.

Lemma post_getJob client jobId E X :
  post [Call (JobGetMetadata (BigQuery.client_job jobId))] handler_event any E X
    (BigQuery.getJob ups client jobId).
Proof.
  apply post_never. unfold BigQuery.getJob.
  apply post_catch_any; [|intros; post_auto ups].
  apply post_bind_any; [apply post_no_exit; apply post_await|intros].
  unfold BigQuery.path2, BigQuery.path3.
  post_auto ups.
Qed.

Lemma post_cancelJob client jobId E X :
  post [Call (JobCancel (BigQuery.client_job jobId))] handler_event any E X
    (BigQuery.cancelJob ups client jobId).
Proof.
  apply post_never. unfold BigQuery.cancelJob.
  apply post_catch_any; [|intros; post_auto ups].
  apply post_bind_any; [apply post_no_exit; apply post_await|intros].
  unfold BigQuery.path2, BigQuery.job_getMetadata.
  post_auto ups.
Qed.

Lemma post_fetchUrl client url X :
  post [Call (HttpFetch url [("User-Agent", Fetch.userAgent client)])]
    handler_event any any X
    (Fetch.fetchUrl ups client url).
Proof.
  apply post_no_exit. unfold Fetch.fetchUrl.
  apply post_catch_any; [|intros; post_auto ups].
  apply post_bind_any; [apply post_await|intros].
  post_auto ups.
Qed.

Lemma post_getUserProfile client user_id X :
  post [Call (HttpFetch
                (JStr ("https://slack.com/api/users.profile.get?"
                       ++ URLSearchParams_toString
                            [("user", user_id); ("include_labels", JStr "true")]))
                (Template.botHeaders client))]
    handler_event any any X
    (Template.getUserProfile ups URLSearchParams_toString client user_id).
Proof.
  apply post_no_exit. unfold Template.getUserProfile.
  apply post_bind_any; [apply post_await|intros].
  post_auto ups.
Qed.

End ClientLogic.

(* ================================================================= *)
(** ** The request handlers: what they emit and how they end *)

Section HandlerLogic.

Variable ups : Upstream.
Variable JSON_parse : string -> Thrown + JSValue.
Variable costInUSD : JSValue -> JSValue.
Variable URLSearchParams_toString : list (string * JSValue) -> string.

Ltac client_method :=
  eapply post_unprefix;
  [ first [ apply post_executeQuery | apply post_dryRunQuery
          | apply post_getJob | apply post_cancelJob
          | apply post_fetchUrl | apply post_getUserProfile ]
  | reflexivity ].

Ltac handler_auto :=
  repeat first [ post_node | client_method | post_leaf; post_done ].

(** The call-tool handler of each program always returns, and what it
    returns is a text envelope: whatever is thrown below it is caught. *)
Lemma post_callTool s clients request extra :
  post [] handler_event is_text_envelope never never
    (callTool_of ups costInUSD URLSearchParams_toString s clients request extra).
Proof.
  destruct s; cbn [callTool_of];
    unfold BigQuery.callTool, Fetch.callTool, Template.callTool;
    handler_auto.
Qed.

Lemma post_listTools E X :
  post [] handler_event any E X BigQuery.listTools
  /\ post [] handler_event any E X Fetch.listTools
  /\ post [] handler_event any E X Template.listTools.
Proof.
  repeat split; apply post_never;
    unfold BigQuery.listTools, Fetch.listTools, Template.listTools;
    handler_auto.
Qed.

Lemma post_listPrompts E X : post [] handler_event any E X Fetch.listPrompts.
Proof. apply post_never. unfold Fetch.listPrompts. handler_auto. Qed.

Lemma post_getPrompt client request X :
  post [] handler_event any any X (Fetch.getPrompt ups client request).
Proof. apply post_no_exit. unfold Fetch.getPrompt. handler_auto. Qed.


End HandlerLogic.

(* ================================================================= *)
(** ** The process: startup and serving *)

Lemma handler_event_process kind e :
  handler_event e = true -> process_event kind e = true.
Proof. destruct e, kind; cbn; congruence. Qed.

Lemma kind_eqb_refl kind : kind_eqb kind kind = true.
Proof. destruct kind; reflexivity. Qed.

Lemma post_respond kind method h :
  (forall h', h = Some h' -> post [] handler_event any any never h') ->
  post [] (process_event kind) any never never (respond kind method h).
Proof.
  intros H. destruct h as [h|]; cbn [respond].
  - specialize (H h eq_refl).
    apply post_bind_any; [apply post_emit; [destruct kind; reflexivity | exact I]|].
    intros _ w. destruct (H w) as (evs & T & F & O).
    assert (F' : forallb (process_event kind) evs = true).
    { rewrite forallb_forall in *. auto using handler_event_process. }
    destruct (h w) as [[v|e|c] w1]; cbn in *.
    + exists (evs ++ [TransportSend kind (inr v)])%list.
      rewrite T, forallb_app, F'. cbn. unfold process_event. cbn.
      rewrite kind_eqb_refl, <- app_assoc. auto.
    + exists (evs ++ [TransportSend kind (inl e)])%list.
      rewrite T, forallb_app, F'. cbn. unfold process_event. cbn.
      rewrite kind_eqb_refl, <- app_assoc. auto.
    + destruct O.
  - apply post_emit; [|exact I].
    unfold process_event. cbn. rewrite kind_eqb_refl. reflexivity.
Qed.

Lemma post_handle_message server kind msg :
  server_ok server ->
  post [] (process_event kind) any never never (handle_message server kind msg).
Proof.
  intros (Hc & Hl & Hp & Hg). unfold handle_message.
  apply post_bind_any; [apply post_fresh_signal; exact I|intros _].
  destruct (message msg); apply post_respond.
  - intros h' [= <-]. apply Hc.
  - intros h' [= <-]. apply Hl.
  - exact Hp.
  - intros h' Hh. destruct (onGetPrompt server) as [g|] eqn:Eg; [|discriminate].
    cbn in Hh. injection Hh as <-. eapply Hg; reflexivity.
Qed.

Lemma post_step r i :
  server_ok (fst r) ->
  post [] (process_event (snd r)) any never never (step r i).
Proof.
  intros Hs. destruct r as [server kind]. cbn [fst snd] in *.
  unfold step. cbn [fst snd].
  destruct kind, i; try (apply post_ret; exact I).
  - apply post_handle_message; assumption.
  - unfold app_get_sse.
    apply post_bind_any; [apply post_set_transport; exact I|intros _].
    apply post_emit; [reflexivity | exact I].
  - unfold app_post_messages.
    apply post_bind_any; [apply post_get_world; intros; exact I|intros w0].
    destruct (transport w0).
    + apply post_bind_any; [apply post_emit; [reflexivity | exact I]|intros _].
      apply post_handle_message; assumption.
    + apply post_ret; exact I.
Qed.

Lemma post_serve r inputs :
  server_ok (fst r) ->
  post [] (process_event (snd r)) any never never (serve r inputs).
Proof.
  intros Hs. induction inputs as [|i rest IH]; cbn [serve].
  - apply post_ret; exact I.
  - apply post_bind_any; [apply post_step; assumption | intros _; exact IH].
Qed.

Lemma post_start_transport server argv :
  post [] (process_event (transport_of argv))
    (fun r => r = (server, transport_of argv)) never never
    (start_transport server argv).
Proof.
  unfold start_transport, transport_of, console_log, console_error.
  destruct (includes "--sse" argv).
  - apply post_bind_any; [apply post_set_transport; exact I|intros _].
    apply post_bind_any; [apply post_emit; [reflexivity | exact I]|intros _].
    apply post_bind_any; [apply post_emit; [reflexivity | exact I]|intros _].
    apply post_ret; reflexivity.
  - apply post_bind_any; [apply post_emit; [reflexivity | exact I]|intros _].
    apply post_bind_any; [apply post_emit; [reflexivity | exact I]|intros _].
    apply post_bind_any; [apply post_emit; [reflexivity | exact I]|intros _].
    apply post_ret; reflexivity.
Qed.

Section ProcessLogic.

Variable ups : Upstream.
Variable JSON_parse : string -> Thrown + JSValue.
Variable costInUSD : JSValue -> JSValue.
Variable URLSearchParams_toString : list (string * JSValue) -> string.

Lemma callTool_ok s clients request extra :
  post [] handler_event any any never
    (callTool_of ups costInUSD URLSearchParams_toString s clients request extra).
Proof.
  eapply post_weaken; [apply post_callTool | | |]; intros; try exact I; auto.
Qed.

Lemma bigquery_server_ok client :
  server_ok (mkServer "BigQuery MCP Server"
               (BigQuery.callTool ups costInUSD client) BigQuery.listTools
               None None).
Proof.
  repeat split; cbn; try discriminate; intros.
  - exact (callTool_ok BigQueryService
             (mkClients client (Fetch.mkClient "") (Template.mkClient []))
             request extra).
  - apply post_listTools.
Qed.

Lemma fetch_server_ok client :
  server_ok (mkServer "Fetch MCP Server"
               (Fetch.callTool ups client) Fetch.listTools
               (Some Fetch.listPrompts) (Some (Fetch.getPrompt ups client))).
Proof.
  repeat split; cbn; intros.
  - exact (callTool_ok FetchService
             (mkClients (BigQuery.mkClient JNull) client (Template.mkClient []))
             request extra).
  - apply post_listTools.
  - injection H as <-. apply post_listPrompts.
  - injection H as <-. apply post_getPrompt.
Qed.

Lemma template_server_ok client :
  server_ok (mkServer "Slack MCP Server"
               (Template.callTool ups URLSearchParams_toString client)
               Template.listTools None None).
Proof.
  repeat split; cbn; try discriminate; intros.
  - exact (callTool_ok TemplateService
             (mkClients (BigQuery.mkClient JNull) (Fetch.mkClient "") client)
             request extra).
  - apply post_listTools.
Qed.

Lemma post_start_ok server argv :
  server_ok server ->
  post [] (process_event (transport_of argv))
    (fun r => server_ok (fst r) /\ snd r = transport_of argv) any any
    (start_transport server argv).
Proof.
  intros H. eapply post_weaken; [apply post_start_transport | | |]; cbn.
  - intros r ->. auto.
  - intros ? [].
  - intros ? [].
Qed.

Lemma post_setRequestHandler p capabilities method :
  post [] p any any any (setRequestHandler capabilities method).
Proof.
  unfold setRequestHandler.
  destruct (required_capability method) as [capability|];
    [destruct (includes capability capabilities)|];
    first [apply post_ret | apply post_throw]; exact I.
Qed.

Lemma post_main s env argv :
  post [] (process_event (transport_of argv))
    (fun r => server_ok (fst r) /\ snd r = transport_of argv) any any
    (main_of ups JSON_parse costInUSD URLSearchParams_toString s env argv).
Proof.
  destruct s; cbn [main_of];
    unfold BigQuery.main, Fetch.main, Template.main, console_error,
      BigQuery.new_BigQueryClient.
  - destruct (negb (truthy (env_value env "BIGQUERY_CREDENTIALS"))).
    + apply post_bind_any;
        [apply post_emit; [destruct (transport_of argv); reflexivity | exact I]|intros _].
      apply post_process_exit; [destruct (transport_of argv); reflexivity | exact I].
    + apply post_bind_any;
        [apply post_emit; [destruct (transport_of argv); reflexivity | exact I]|intros _].
      apply post_bind_any.
      * apply post_bind_any; [apply post_lift; intros; exact I|intros].
        apply post_ret; exact I.
      * intros client. apply post_start_ok, bigquery_server_ok.
  - apply post_bind_any;
      [apply post_emit; [destruct (transport_of argv); reflexivity | exact I]|intros _].
    repeat (apply post_bind_any; [apply post_setRequestHandler|intros _]).
    apply post_start_ok, fetch_server_ok.
  - destruct (negb (truthy (env_value env "SLACK_BOT_TOKEN"))
              || negb (truthy (env_value env "SLACK_TEAM_ID"))).
    + apply post_bind_any;
        [apply post_emit; [destruct (transport_of argv); reflexivity | exact I]|intros _].
      apply post_process_exit; [destruct (transport_of argv); reflexivity | exact I].
    + apply post_bind_any;
        [apply post_emit; [destruct (transport_of argv); reflexivity | exact I]|intros _].
      apply post_start_ok, template_server_ok.
Qed.

Lemma post_run_process s env argv inputs :
  post [] (process_event (transport_of argv)) any never any
    (run_process
       (main_of ups JSON_parse costInUSD URLSearchParams_toString s env argv)
       inputs).
Proof.
  unfold run_process.
  eapply post_bind.
  - eapply post_try_catch; [apply post_main|].
    intros e _. unfold console_error.
    apply post_bind_any;
      [apply post_emit; [destruct (transport_of argv); reflexivity | exact I]|intros _].
    apply post_process_exit; [destruct (transport_of argv); reflexivity | exact I].
  - intros r [Hs Hk]. cbn beta in *. rewrite <- Hk.
    apply post_no_exit. apply post_serve. assumption.
Qed.

End ProcessLogic.

(* ================================================================= *)
(** ** Required fields *)

Section Validation.

Variable ups : Upstream.
Variable costInUSD : JSValue -> JSValue.
Variable URLSearchParams_toString : list (string * JSValue) -> string.

(** A required field whose value is falsy ([undefined] when the key is
    missing, the empty string, [null], [0], [false]) stops the handler
    at its own check. *)
Lemma callTool_rejects_falsy_field s clients tool f props extra w :
  In tool (tools_of s) -> In f (tool_required tool) ->
  truthy (lookup f props) = false ->
  callTool_of ups costInUSD URLSearchParams_toString s clients
    (mkCallTool (tool_name tool) (JObj props)) extra w
  = rejected (validation_message s f) w.
Proof.
  intros Ht Hf Hv.
  destruct s; pick_tool Ht; pick_tool Hf;
    cbn [callTool_of tool_name BigQuery.executeQueryTool
         BigQuery.dryRunQueryTool BigQuery.getJobTool BigQuery.cancelJobTool
         Fetch.fetchTool Template.getUserProfileTool validation_message];
    unfold BigQuery.callTool, Fetch.callTool, Template.callTool;
    cbn [params_name params_arguments truthy negb get_prop lift];
    eval_eqb; unfold_m; cbn [fst snd]; rewrite Hv; cbn;
    norm_trace; reflexivity.
Qed.

(** C10. In each of the three programs and for each tool they list, a
    request whose arguments object holds the required field with the
    empty string as its value is turned down at the handler's own check,
    with the same outcome (envelope, diagnostics, world) as a request in
    which the field is missing: the error envelope with the tool's
    validation message, two diagnostic lines, and no call on any
    upstream client.  The check tests the value, not the key. *)
Theorem C10_empty_string_rejected_like_missing :
  forall s clients tool f props props' extra w,
    In tool (tools_of s) -> In f (tool_required tool) ->
    lookup f props = JStr "" ->
    lookup f props' = JUndefined ->
    callTool_of ups costInUSD URLSearchParams_toString s clients
      (mkCallTool (tool_name tool) (JObj props)) extra w
    = (Ret (error_envelope
              match s with
              | FetchService => "URL is required"
              | _ => "Missing required argument: " ++ f
              end),
       after w [ConsoleError "Received CallToolRequest:";
                ConsoleError "Error executing tool:"])
    /\ callTool_of ups costInUSD URLSearchParams_toString s clients
         (mkCallTool (tool_name tool) (JObj props)) extra w
       = callTool_of ups costInUSD URLSearchParams_toString s clients
           (mkCallTool (tool_name tool) (JObj props')) extra w
    /\ existsb is_call
         (since w (snd (callTool_of ups costInUSD URLSearchParams_toString
                          s clients
                          (mkCallTool (tool_name tool) (JObj props)) extra w)))
       = false.
Proof.
  intros s clients tool f props props' extra w Ht Hf Hv Hv'.
  rewrite (callTool_rejects_falsy_field s clients tool f props extra w Ht Hf)
    by (rewrite Hv; reflexivity).
  rewrite (callTool_rejects_falsy_field s clients tool f props' extra w Ht Hf)
    by (rewrite Hv'; reflexivity).
  split; [destruct s; reflexivity|].
  split; [reflexivity|].
  unfold rejected. cbn [snd].
  erewrite since_app; [|reflexivity]. reflexivity.
Qed.


End Validation.

(* ================================================================= *)
(** ** Cancellation *)

Ltac open_world w :=
  destruct w as [w_aborted w_listeners w_next w_transport w_trace];
  cbn [aborted listeners next_closure transport trace] in *; subst.

Ltac red_world :=
  cbn [fst snd trace aborted listeners next_closure transport negb
       run_callbacks run_callback l_callback l_once l_closure
       filter existsb orb];
  rewrite ?Nat.eqb_refl;
  cbn [negb filter existsb orb].

Ltac oracle :=
  match goal with
  | |- context [match ?x with inl _ => _ | inr _ => _ end] =>
      lazymatch x with
      | inl _ => fail
      | inr _ => fail
      | _ => destruct x eqn:?
      end
  | |- context [if up_abort ?u ?h then _ else _] =>
      destruct (up_abort u h) eqn:?
  | |- context [if is_AbortError ?e then _ else _] =>
      destruct (is_AbortError e) eqn:?
  end.

Ltac tidy :=
  repeat match goal with
         | H : inl _ = inl _ |- _ => injection H as <-
         | H : inr _ = inr _ |- _ => injection H as <-
         | H : inl _ = inr _ |- _ => discriminate H
         | H : inr _ = inl _ |- _ => discriminate H
         | H : true = false |- _ => discriminate H
         | H : false = true |- _ => discriminate H
         end.

Ltac use_answer :=
  match goal with
  | H : up_createQueryJob _ _ _ = _ |- _ => rewrite H
  | H : up_cancel _ _ _ = _ |- _ => rewrite H
  | H : up_abort _ _ = _ |- _ => rewrite H
  end.

Ltac crunch :=
  repeat first
    [ progress unfold_m
    | progress red_world
    | progress norm_trace
    | use_answer
    | oracle; tidy ].

Ltac finish :=
  repeat split;
  try reflexivity;
  try (apply since_app; red_world; norm_trace; reflexivity).

Section Cancellation.

Variable ups : Upstream.
Variable costInUSD : JSValue -> JSValue.

(** C1, amended. When the token of a [bigquery_execute_query] request
    is already signalled as the handler starts, the handler still calls
    the upstream start operation ([createQueryJob]) once, before it looks
    at the token.  If the job is created, the handler requests its
    cancellation once, registers no listener and never waits for results,
    and when that request succeeds the payload of the (normal) envelope
    is [{ success: false, error: "Request was cancelled", jobId }]; if
    [createQueryJob] or the cancellation rejects, the payload reports
    that failure instead. *)
Theorem C1_already_cancelled :
  forall client props extra w,
    aborted w = true ->
    truthy (lookup "query" props) = true ->
    let query := lookup "query" props in
    let r := BigQuery.callTool ups costInUSD client (execute_request props) extra w in
    match up_createQueryJob ups (trace w ++ [received; start_of query])
            (JObj [("query", query)]) with
    | inl e =>
        fst r = Ret (text_content (JSON_stringify (BigQuery.failure (reported e))))
        /\ since w (snd r) = [received; start_of query]
    | inr job =>
        since w (snd r) = [received; start_of query; Call (JobCancel job)]
        /\ match up_cancel ups
                   (trace w ++ [received; start_of query; Call (JobCancel job)])
                   job with
           | inl e =>
               fst r = Ret (text_content
                              (JSON_stringify (BigQuery.failure (reported e))))
           | inr _ =>
               fst r = Ret (text_content
                              (JSON_stringify
                                 (JObj [("success", JBool false);
                                        ("error", JStr "Request was cancelled");
                                        ("jobId", job_id job)])))
           end
    end.
Proof.
  intros client props [[]] w Ha Hq query r. subst query r.
  open_world w.
  unfold execute_request, BigQuery.callTool, BigQuery.executeQuery,
    BigQuery.createQueryJob, BigQuery.job_cancel, await, deliver_abort,
    signal_aborted, received, start_of, reported.
  cbn [params_name params_arguments truthy negb get_prop lift signal].
  eval_eqb. repeat (progress unfold_m). red_world. rewrite Hq.
  crunch; finish.
Qed.

(** C3. For a [bigquery_execute_query] request whose token is not
    signalled on arrival and whose query job is created: exactly one
    cancellation request is made if the client aborts during the
    execution (the token ends up signalled), none otherwise, and every
    cancellation request is made on the job's handle; the abort listener
    is removed exactly as many times as it was added, which is once when
    the results are awaited and never otherwise (and is once whenever
    the token is still unsignalled when the job exists), whether the
    results call succeeds, fails, or the request is cancelled; no
    listener is left on the signal, and the handler returns a text
    envelope. *)
Theorem C3_cancel_once_listener_removed_once :
  forall client props extra w job,
    aborted w = false -> listeners w = [] ->
    truthy (lookup "query" props) = true ->
    up_createQueryJob ups (history_at_creation ups w (lookup "query" props))
      (JObj [("query", lookup "query" props)]) = inr job ->
    let r := BigQuery.callTool ups costInUSD client (execute_request props) extra w in
    count is_cancel (since w (snd r)) = (if aborted (snd r) then 1 else 0)%nat
    /\ Forall (cancel_targets job) (since w (snd r))
    /\ count is_remove (since w (snd r)) = count is_add (since w (snd r))
    /\ count is_add (since w (snd r)) = count is_results (since w (snd r))
    /\ (count is_add (since w (snd r)) <= 1)%nat
    /\ (up_abort ups (trace w ++ [received; start_of (lookup "query" props)])
        = false ->
        count is_add (since w (snd r)) = 1%nat)
    /\ listeners (snd r) = []
    /\ exists text, fst r = Ret (text_content text).
Proof.
  intros client props [[]] w job Ha Hl Hq Hjob r. subst r.
  open_world w.
  unfold execute_request, BigQuery.callTool, BigQuery.executeQuery,
    BigQuery.createQueryJob, BigQuery.job_cancel, BigQuery.job_getQueryResults,
    await, deliver_abort, signal_aborted, addEventListener, removeEventListener,
    history_at_creation, received, start_of in *.
  cbn [params_name params_arguments truthy negb get_prop lift signal].
  eval_eqb. repeat (progress unfold_m). red_world. rewrite Hq.
  red_world. norm_trace. cbn [trace] in Hjob.
  destruct (up_abort ups _) eqn:Hab1 in Hjob |- *.
  - crunch;
      (erewrite !since_app by (cbn [trace]; reflexivity));
      cbn; repeat split; try reflexivity; try discriminate; try lia;
      try (repeat constructor; fail); try (eexists; reflexivity).
  - crunch;
      (erewrite !since_app by (cbn [trace]; reflexivity));
      cbn; repeat split; try reflexivity; try discriminate; try lia;
      try (repeat constructor; fail); try (eexists; reflexivity).
Qed.

End Cancellation.

(* ================================================================= *)
(** ** Failures *)


Ltac use_quantified :=
  match goal with
  | H : forall h : list Event, _ = _ |- _ => rewrite H
  | H : forall (h : list Event) o, _ = _ |- _ => rewrite H
  end.

Ltac client_run :=
  repeat first
    [ progress unfold_m
    | progress red_world
    | progress norm_trace
    | use_answer
    | use_quantified
    | progress cbn [get_prop]
    | oracle; tidy
    | match goal with
      | |- context [if ?b then _ else _] => is_var b; destruct b
      end ].

Ltac client_done :=
  try (erewrite !since_app by (cbn [trace]; reflexivity));
  cbn; repeat split; try reflexivity; try discriminate; try lia;
  try (repeat constructor; fail); try (eexists; reflexivity).

Section Failures.

Variable ups : Upstream.
Variable costInUSD : JSValue -> JSValue.
Variable URLSearchParams_toString : list (string * JSValue) -> string.

Lemma run_callbacks_returns ls w : fst (run_callbacks ups ls w) = Ret tt.
Proof.
  revert w. induction ls as [|l ls IH]; intros w; cbn [run_callbacks].
  - reflexivity.
  - unfold bind at 1. destruct (l_callback l) as [job].
    unfold run_callback. unfold_m. cbn [fst snd trace].
    destruct (up_cancel ups _ job); cbn; apply IH.
Qed.

Lemma deliver_abort_returns w : fst (deliver_abort ups w) = Ret tt.
Proof.
  unfold deliver_abort. destruct (aborted w); [reflexivity|].
  apply run_callbacks_returns.
Qed.


(** A wait that resolves, and a wait that rejects, whatever the client
    does meanwhile. *)
Lemma wait_resolves {A} call (answer : list Event -> Thrown + A) a w :
  (forall h, answer h = inr a) ->
  exists w', await ups call answer w = (Ret a, w').
Proof.
  intros H. unfold await. unfold_m. red_world.
  destruct (up_abort ups _).
  - pose proof (deliver_abort_returns
                  {| aborted := aborted w; listeners := listeners w;
                     next_closure := next_closure w; transport := transport w;
                     trace := trace w ++ [Call call] |}) as R.
    destruct (deliver_abort ups _) as [o w1]. cbn [fst] in R. subst o.
    rewrite H. eexists; reflexivity.
  - rewrite H. eexists; reflexivity.
Qed.









(** *** The prompt of the fetch program *)





End Failures.

(* ================================================================= *)
(** ** Startup and the output channels *)

Section Startup.

Variable ups : Upstream.
Variable JSON_parse : string -> Thrown + JSValue.
Variable costInUSD : JSValue -> JSValue.
Variable URLSearchParams_toString : list (string * JSValue) -> string.

(** The registration of the handler for [ListPromptsRequestSchema]
    throws: the fetch program declares the tools capability only. *)
Lemma fetch_main_throws env argv w :
  Fetch.main ups env argv w
  = (Throw (new_Error
              "Server does not support prompts (required for prompts/list)"),
     after w [ConsoleError "Starting Fetch MCP Server..."]).
Proof. reflexivity. Qed.



(** C9. In each of the three programs and over the whole life of the
    process (startup, then any sequence of inputs), every diagnostic
    line is written on a channel other than the one that carries the
    protocol responses of the transport chosen at startup; without
    [--sse] (the duplex transport, whose protocol channel is the standard
    output) nothing is ever printed with [console.log]; and every
    protocol response goes through the chosen transport. *)
Theorem C9_diagnostics_off_protocol_channel :
  forall s env argv inputs,
    (forall e ch,
        In e (events (run_process
                        (main_of ups JSON_parse costInUSD
                           URLSearchParams_toString s env argv) inputs)) ->
        diagnostic_channel e = Some ch ->
        ch <> protocol_channel (transport_of argv))
    /\ (includes "--sse" argv = false ->
        forall e,
          In e (events (run_process
                          (main_of ups JSON_parse costInUSD
                             URLSearchParams_toString s env argv) inputs)) ->
          diagnostic_channel e <> Some Stdout)
    /\ (forall kind payload,
          In (TransportSend kind payload)
            (events (run_process
                       (main_of ups JSON_parse costInUSD
                          URLSearchParams_toString s env argv) inputs)) ->
          kind = transport_of argv).
Proof.
  intros s env argv inputs.
  destruct (post_run_process ups JSON_parse costInUSD URLSearchParams_toString
              s env argv inputs init_world) as (evs & T & F & _).
  unfold events, run. rewrite T. cbn [trace init_world app].
  rewrite forallb_forall in F.
  assert (Hoff : forall e ch, In e evs -> diagnostic_channel e = Some ch ->
                              ch <> protocol_channel (transport_of argv)).
  { intros e ch Hin Hch. specialize (F e Hin).
    unfold process_event, off_protocol in F. rewrite Hch in F.
    apply andb_prop in F. destruct F as [F _].
    intros ->. destruct (protocol_channel (transport_of argv)); discriminate. }
  repeat split.
  - exact Hoff.
  - intros Hsse e Hin Hch.
    apply (Hoff e Stdout Hin Hch).
    unfold transport_of. rewrite Hsse. reflexivity.
  - intros kind payload Hin. specialize (F _ Hin).
    unfold process_event in F. apply andb_prop in F. destruct F as [_ F].
    cbn in F. destruct kind, (transport_of argv); try reflexivity; discriminate.
Qed.

End Startup.

Lemma C9_witness :
  In (ConsoleLog "[sse] MCP Server running on http://localhost:3000")
    (events (run_process
               (BigQuery.main accepting sample_parse sample_cost
                  (bigquery_env "{}") ["--sse"]) []))
  /\ Stdout <> protocol_channel (transport_of ["--sse"]).
Proof.
  split; [cbn; tauto|].
  apply (proj1 (C9_diagnostics_off_protocol_channel accepting sample_parse
                  sample_cost sample_params BigQueryService (bigquery_env "{}")
                  ["--sse"] [])
               (ConsoleLog "[sse] MCP Server running on http://localhost:3000")
               Stdout).
  - cbn. tauto.
  - reflexivity.
Defined.

(* ================================================================= *)
(** ** Concrete runs *)


Lemma C1_witness :
  aborted cancelled_on_arrival = true
  /\ truthy (lookup "query" select_one) = true
  /\ since cancelled_on_arrival
       (snd (BigQuery.callTool accepting sample_cost
               (bigqueryClient sample_clients) (execute_request select_one)
               sample_extra cancelled_on_arrival))
     = [received; start_of (JStr "SELECT 1"); Call (JobCancel sample_job)].
Proof.
  split; [reflexivity|]. split; [reflexivity|].
  exact (proj1 (C1_already_cancelled accepting sample_cost
                  (bigqueryClient sample_clients) select_one sample_extra
                  cancelled_on_arrival eq_refl eq_refl)).
Defined.

(** C1 as stated fails: with the request cancelled on arrival, the
    query job is created all the same, and the payload is not
    [{"error":"Request was cancelled"}]. *)
Lemma C1_counterexample :
  existsb is_start
    (events (fresh_signal true ;;
             BigQuery.callTool accepting sample_cost
               (bigqueryClient sample_clients) (execute_request select_one)
               sample_extra)) = true
  /\ result (fresh_signal true ;;
             BigQuery.callTool accepting sample_cost
               (bigqueryClient sample_clients) (execute_request select_one)
               sample_extra)
     <> Ret (error_envelope "Request was cancelled").
Proof.
  split; [reflexivity|]. vm_compute. discriminate.
Qed.



Lemma C3_witness :
  aborted init_world = false
  /\ listeners init_world = []
  /\ count is_cancel
       (events (BigQuery.callTool aborting_while_waiting sample_cost
                  (bigqueryClient sample_clients) (execute_request select_one)
                  sample_extra)) = 1%nat
  /\ count is_remove
       (events (BigQuery.callTool aborting_while_waiting sample_cost
                  (bigqueryClient sample_clients) (execute_request select_one)
                  sample_extra)) = 1%nat.
Proof.
  split; [reflexivity|]. split; [reflexivity|].
  pose proof (C3_cancel_once_listener_removed_once aborting_while_waiting
                sample_cost (bigqueryClient sample_clients) select_one
                sample_extra init_world sample_job
                eq_refl eq_refl eq_refl eq_refl)
    as (Hcancel & _ & Hremove & _ & _ & Hadd & _).
  split; [exact Hcancel|].
  exact (eq_trans Hremove (Hadd eq_refl)).
Defined.







Lemma C10_witness :
  In Template.getUserProfileTool (tools_of TemplateService)
  /\ In "user_id" (tool_required Template.getUserProfileTool)
  /\ lookup "user_id" [("user_id", JStr "")] = JStr ""
  /\ lookup "user_id" [] = JUndefined
  /\ Template.callTool accepting sample_params (slackClient sample_clients)
       (mkCallTool "slack_get_user_profile" (JObj [("user_id", JStr "")]))
       sample_extra init_world
     = (Ret (error_envelope "Missing required argument: user_id"),
        after init_world [ConsoleError "Received CallToolRequest:";
                          ConsoleError "Error executing tool:"]).
Proof.
  split; [cbn; tauto|]. split; [cbn; tauto|].
  split; [reflexivity|]. split; [reflexivity|].
  exact (proj1 (C10_empty_string_rejected_like_missing accepting sample_cost
                  sample_params TemplateService sample_clients
                  Template.getUserProfileTool "user_id"
                  [("user_id", JStr "")] [] sample_extra init_world
                  (or_introl eq_refl) (or_introl eq_refl) eq_refl eq_refl)).
Defined.

(* ================================================================= *)
(** ** Further properties of the request handlers *)

Section Dispatch.

Variable ups : Upstream.
Variable costInUSD : JSValue -> JSValue.
Variable URLSearchParams_toString : list (string * JSValue) -> string.

Lemma callTool_truthy_non_object s clients tool f args extra w :
  In tool (tools_of s) -> In f (tool_required tool) ->
  is_object args = false -> truthy args = true ->
  callTool_of ups costInUSD URLSearchParams_toString s clients
    (mkCallTool (tool_name tool) args) extra w
  = rejected (validation_message s f) w.
Proof.
  intros Ht Hf Ho Ha.
  destruct s; pick_tool Ht; pick_tool Hf;
    cbn [callTool_of tool_name BigQuery.executeQueryTool
         BigQuery.dryRunQueryTool BigQuery.getJobTool BigQuery.cancelJobTool
         Fetch.fetchTool Template.getUserProfileTool validation_message];
    unfold BigQuery.callTool, Fetch.callTool, Template.callTool;
    cbn [params_name params_arguments]; rewrite Ha;
    destruct args; try discriminate Ha; try discriminate Ho;
    cbn [negb get_prop lift truthy]; eval_eqb; unfold_m; cbn;
    norm_trace; reflexivity.
Qed.



(** X2. The arguments value is tested by truthiness and then read as an
    object without being checked to be one.  For a listed tool, an
    arguments value that is not an object is answered before any client
    call: "No arguments provided" when it is falsy (the number 0, the
    empty string, [false], as for [null] and a missing value), and the
    tool's own missing-field message when it is truthy (a non-empty
    string, a non-zero number, [true], an array), since no field can be
    read from it. *)
Theorem X2_arguments_not_an_object :
  forall s clients tool f args extra w,
    In tool (tools_of s) -> In f (tool_required tool) ->
    is_object args = false ->
    callTool_of ups costInUSD URLSearchParams_toString s clients
      (mkCallTool (tool_name tool) args) extra w
    = (Ret (error_envelope
              (if truthy args
               then match s with
                    | FetchService => "URL is required"
                    | _ => "Missing required argument: " ++ f
                    end
               else "No arguments provided")),
       after w [ConsoleError "Received CallToolRequest:";
                ConsoleError "Error executing tool:"]).
Proof.
  intros s clients tool f args extra w Ht Hf Ho.
  destruct (truthy args) eqn:Ha.
  - rewrite (callTool_truthy_non_object s clients tool f args extra w
               Ht Hf Ho Ha).
    destruct s; reflexivity.
  - destruct s; cbn [callTool_of].
    + apply bigquery_falsy_arguments; assumption.
    + apply fetch_falsy_arguments; assumption.
    + apply template_falsy_arguments; assumption.
Qed.

End Dispatch.


Lemma X2_witness :
  In BigQuery.executeQueryTool (tools_of BigQueryService)
  /\ In "query" (tool_required BigQuery.executeQueryTool)
  /\ is_object (JStr "SELECT 1") = false
  /\ result (BigQuery.callTool accepting sample_cost
               (bigqueryClient sample_clients)
               (mkCallTool "bigquery_execute_query" (JStr "SELECT 1"))
               sample_extra)
     = Ret (error_envelope "Missing required argument: query").
Proof.
  split; [cbn; tauto|]. split; [cbn; tauto|]. split; [reflexivity|].
  exact (f_equal fst
           (X2_arguments_not_an_object accepting sample_cost sample_params
              BigQueryService sample_clients BigQuery.executeQueryTool "query"
              (JStr "SELECT 1") sample_extra init_world
              (or_introl eq_refl) (or_introl eq_refl) eq_refl)).
Defined.

(* ================================================================= *)
(** ** Further properties of the BigQuery client *)

Section ClientProperties.

Variable ups : Upstream.
Variable costInUSD : JSValue -> JSValue.

(** X3. [executeQuery] called without a signal never ties the job to
    the request: whatever the upstream answers and whether or not the
    client aborts meanwhile, it registers and removes no listener and
    makes no cancellation request, and it returns (it never throws). *)
Theorem X3_no_signal_no_cancellation :
  forall client query w,
    listeners w = [] ->
    let r := BigQuery.executeQuery ups client query None w in
    count is_cancel (since w (snd r)) = 0%nat
    /\ count is_add (since w (snd r)) = 0%nat
    /\ count is_remove (since w (snd r)) = 0%nat
    /\ listeners (snd r) = []
    /\ exists v, fst r = Ret v.
Proof.
  intros client query w Hl r. subst r. open_world w.
  unfold BigQuery.executeQuery, BigQuery.createQueryJob, BigQuery.job_cancel,
    BigQuery.job_getQueryResults, await, deliver_abort, signal_aborted,
    addEventListener, removeEventListener.
  client_run; client_done.
Qed.

(** X4. What [executeQuery] does when the request carries a signal that
    is not aborted and the client never aborts.  If [createQueryJob]
    rejects, that is the only effect and the failure is reported.  If it
    resolves, the listener is added once, the results are awaited, the
    listener is removed, in that order and whatever the results call
    does, no cancellation is requested, and the result is
    [{ success: true, rows, jobId }] or the reported failure. *)
Theorem X4_execute_query_undisturbed :
  forall client query w,
    aborted w = false -> listeners w = [] ->
    (forall h, up_abort ups h = false) ->
    let r := BigQuery.executeQuery ups client query (Some RequestSignal) w in
    match up_createQueryJob ups (trace w ++ [start_of query])
            (JObj [("query", query)]) with
    | inl e =>
        fst r = Ret (BigQuery.failure (reported e))
        /\ since w (snd r) = [start_of query]
    | inr job =>
        since w (snd r)
        = [start_of query;
           AddEventListener (next_closure w) true;
           Call (JobGetQueryResults job);
           RemoveEventListener (next_closure w)]
        /\ listeners (snd r) = []
        /\ fst r
           = match up_getQueryResults ups
                     (trace w ++ [start_of query;
                                  AddEventListener (next_closure w) true;
                                  Call (JobGetQueryResults job)])
                     job with
             | inl e => Ret (BigQuery.failure (reported e))
             | inr rows =>
                 Ret (JObj [("success", JBool true); ("rows", rows);
                            ("jobId", job_id job)])
             end
    end.
Proof.
  intros client query w Ha Hl Hab r. subst r. open_world w.
  unfold BigQuery.executeQuery, BigQuery.createQueryJob, BigQuery.job_cancel,
    BigQuery.job_getQueryResults, await, deliver_abort, signal_aborted,
    addEventListener, removeEventListener, start_of, reported.
  client_run; client_done.
Qed.

(** X5. A dry run is one upstream call: [dryRunQuery] calls
    [createQueryJob] once, with [dryRun: true], and makes no other call
    (it never fetches results and never cancels), whatever the answer;
    and it returns (it never throws). *)
Theorem X5_dry_run_single_call :
  forall client query w,
    listeners w = [] ->
    let r := BigQuery.dryRunQuery ups costInUSD client query w in
    filter is_call (since w (snd r))
    = [Call (CreateQueryJob (JObj [("query", query); ("dryRun", JBool true)]))]
    /\ exists v, fst r = Ret v.
Proof.
  intros client query w Hl r. subst r. open_world w.
  unfold BigQuery.dryRunQuery, BigQuery.createQueryJob, await, deliver_abort.
  client_run; client_done.
Qed.

(** X6. The dry run reads [metadata.statistics.query.totalBytesProcessed]
    of the created job without checking that the path exists.  When the
    three objects are there, the result is a success carrying that
    value, the cost computed from it and the job id; when the metadata
    has no [statistics], the TypeError of the read is caught and the
    result is a failure carrying its message. *)
Theorem X6_dry_run_metadata :
  forall client query w job m,
    (forall h o, up_createQueryJob ups h o = inr job) ->
    job_metadata job = JObj m ->
    (forall s q,
        lookup "statistics" m = JObj s -> lookup "query" s = JObj q ->
        fst (BigQuery.dryRunQuery ups costInUSD client query w)
        = Ret (JObj [("success", JBool true);
                     ("bytesProcessed", lookup "totalBytesProcessed" q);
                     ("costInUSD", costInUSD (lookup "totalBytesProcessed" q));
                     ("jobId", job_id job)]))
    /\ (lookup "statistics" m = JUndefined ->
        fst (BigQuery.dryRunQuery ups costInUSD client query w)
        = Ret (BigQuery.failure
                 "Cannot read properties of undefined (reading 'query')")).
Proof.
  intros client query w job m Hc Hm.
  destruct (wait_resolves ups
              (CreateQueryJob (JObj [("query", query); ("dryRun", JBool true)]))
              (fun h => up_createQueryJob ups h
                          (JObj [("query", query); ("dryRun", JBool true)]))
              job w (fun h => Hc h _)) as [w' E].
  split; [intros s q Hs Hq | intros Hs];
    unfold BigQuery.dryRunQuery, BigQuery.createQueryJob;
    unfold try_catch, bind at 1; rewrite E;
    repeat (progress unfold_m); rewrite Hm; cbn [get_prop];
    rewrite Hs; repeat (progress unfold_m); cbn [get_prop fst];
    try rewrite Hq; repeat (progress unfold_m); cbn [get_prop fst];
    reflexivity.
Qed.

(** X7. [getJob] only reads: its one upstream call is [getMetadata] on
    the handle of the requested id, it creates and cancels nothing.
    Every field of the metadata is read through optional chaining, so
    for any metadata object, however sparse, the result is a success,
    and its [jobId] is the one of the metadata's job reference, not the
    requested one. *)
Theorem X7_get_job_reads_only :
  forall client jobId w,
    listeners w = [] ->
    filter is_call (since w (snd (BigQuery.getJob ups client jobId w)))
    = [Call (JobGetMetadata (BigQuery.client_job jobId))]
    /\ (forall props,
          (forall h, up_getMetadata ups h (BigQuery.client_job jobId)
                     = inr (JObj props)) ->
          exists v,
            fst (BigQuery.getJob ups client jobId w) = Ret v
            /\ get_prop_opt v "success" = JBool true
            /\ get_prop_opt v "jobId"
               = get_prop_opt (lookup "jobReference" props) "jobId").
Proof.
  intros client jobId w Hl. split.
  - open_world w.
    unfold BigQuery.getJob, BigQuery.job_getMetadata, await, deliver_abort,
      BigQuery.path2, BigQuery.path3.
    client_run;
      repeat match goal with
             | |- context [get_prop ?v _] =>
                 is_var v; destruct v; cbn [get_prop]
             end;
      client_run; client_done.
  - intros props Hm. open_world w.
    unfold BigQuery.getJob, BigQuery.job_getMetadata, await, deliver_abort,
      BigQuery.path2, BigQuery.path3.
    client_run; cbn [get_prop]; client_run;
      eexists; repeat split; reflexivity.
Qed.

(** X8. [cancelJob] asks for the cancellation first and reads the
    metadata afterwards: when the cancellation request rejects, the
    metadata is never requested and the result is the failure carrying
    the rejection's message; when it resolves, the metadata is requested
    next, on the same handle. *)
Theorem X8_cancel_job_order :
  forall client jobId w,
    listeners w = [] ->
    (forall e,
        (forall h, up_cancel ups h (BigQuery.client_job jobId) = inl e) ->
        fst (BigQuery.cancelJob ups client jobId w)
        = Ret (BigQuery.failure (error_message e))
        /\ filter is_call (since w (snd (BigQuery.cancelJob ups client jobId w)))
           = [Call (JobCancel (BigQuery.client_job jobId))])
    /\ ((forall h, up_cancel ups h (BigQuery.client_job jobId) = inr tt) ->
        filter is_call (since w (snd (BigQuery.cancelJob ups client jobId w)))
        = [Call (JobCancel (BigQuery.client_job jobId));
           Call (JobGetMetadata (BigQuery.client_job jobId))]).
Proof.
  intros client jobId w Hl. split; [intros e Hc | intros Hc]; open_world w;
    unfold BigQuery.cancelJob, BigQuery.job_cancel, BigQuery.job_getMetadata,
      await, deliver_abort, BigQuery.path2;
    client_run;
    repeat match goal with
           | |- context [get_prop ?v _] =>
               is_var v; destruct v; cbn [get_prop]
           end;
    client_run; client_done.
Qed.

End ClientProperties.

(* ================================================================= *)
(** ** Further properties of the fetch and Slack clients *)

Section FetchProperties.

Variable ups : Upstream.
Variable URLSearchParams_toString : list (string * JSValue) -> string.



End FetchProperties.

(* ================================================================= *)
(** ** Further properties of startup *)

Section StartupProperties.

Variable ups : Upstream.
Variable JSON_parse : string -> Thrown + JSValue.
Variable costInUSD : JSValue -> JSValue.
Variable URLSearchParams_toString : list (string * JSValue) -> string.

Lemma older_fetch_first_call client props extra w :
  truthy (lookup "url" props) = true ->
  exists rest,
    since w (snd (UnnamedFetch.callTool ups client
                    (mkCallTool "fetch" (JObj props)) extra w))
    = received
      :: Call (HttpFetch (lookup "url" props)
                 [("User-Agent", Fetch.userAgent client);
                  ("Content-Type", "text/plain; charset=UTF-8")])
      :: rest.
Proof.
  intros Hv.
  assert (P : post [received;
                    Call (HttpFetch (lookup "url" props)
                            [("User-Agent", Fetch.userAgent client);
                             ("Content-Type", "text/plain; charset=UTF-8")])]
                handler_event any never never
                (UnnamedFetch.callTool ups client
                   (mkCallTool "fetch" (JObj props)) extra)).
  { unfold UnnamedFetch.callTool, UnnamedFetch.fetchUrl, console_error, received.
    cbn [params_name params_arguments truthy negb get_prop lift]. eval_eqb.
    apply post_first.
    apply post_catch_any; [|intros; post_auto ups].
    apply post_bind_ret. rewrite Hv. cbn [negb].
    apply post_bind_any; [|intros; post_auto ups].
    apply post_catch_any; [|intros; post_auto ups].
    apply post_bind_any; [apply post_no_exit; apply post_await|intros].
    post_auto ups. }
  destruct (P w) as (evs & T & _ & _).
  exists evs. apply since_app. exact T.
Qed.

(** X11. The fetch program never starts.  Its server is constructed
    with the tools capability only, so the registration of the handler
    for the list of prompts throws; the [catch] of [main()] logs the
    fatal error and exits with status 1.  In every environment and
    whatever is sent, the life of the process is the startup line, the
    fatal line and the exit: no transport, no request served.  The older
    copy of the program, which registers no prompt handler, does start
    in every environment, and the User-Agent of its fetches is the value
    of MCP_USER_AGENT when the variable is set and not empty, and the
    built-in default otherwise. *)
Theorem X11_fetch_startup :
  forall env argv,
    (forall inputs,
        run (run_process (Fetch.main ups env argv) inputs)
        = (Exit 1,
           after init_world
             [ConsoleError "Starting Fetch MCP Server...";
              ConsoleError "Fatal error in main():";
              ProcessExit 1]))
    /\ exists server w',
        UnnamedFetch.main ups env argv init_world
        = (Ret (server, transport_of argv), w')
        /\ forall props extra w,
            truthy (lookup "url" props) = true ->
            exists rest,
              since w (snd (onCallTool server (mkCallTool "fetch" (JObj props))
                              extra w))
              = received
                :: Call (HttpFetch (lookup "url" props)
                           [("User-Agent",
                             match env "MCP_USER_AGENT" with
                             | Some s =>
                                 if (s =? "")%string
                                 then Fetch.DEFAULT_USER_AGENT else s
                             | None => Fetch.DEFAULT_USER_AGENT
                             end);
                            ("Content-Type", "text/plain; charset=UTF-8")])
                :: rest.
Proof.
  intros env argv. split.
  - intros inputs. unfold run, run_process, bind, try_catch.
    rewrite fetch_main_throws. reflexivity.
  - set (ua := match env "MCP_USER_AGENT" with
               | Some s =>
                   if (s =? "")%string then Fetch.DEFAULT_USER_AGENT else s
               | None => Fetch.DEFAULT_USER_AGENT
               end).
    assert (Hmain : exists w',
               UnnamedFetch.main ups env argv init_world
               = (Ret (mkServer "Fetch MCP Server"
                         (UnnamedFetch.callTool ups (Fetch.mkClient ua))
                         UnnamedFetch.listTools None None,
                       transport_of argv), w')).
    { unfold UnnamedFetch.main, start_transport, transport_of, env_value.
      subst ua.
      destruct (env "MCP_USER_AGENT") as [s|]; cbn [truthy js_to_string];
        [destruct (s =? "")%string; cbn [negb]|];
        destruct (includes "--sse" argv); eexists; reflexivity. }
    destruct Hmain as [w' Hmain].
    eexists _, w'. split; [exact Hmain|].
    intros props extra w Hv. cbn [onCallTool].
    apply (older_fetch_first_call (Fetch.mkClient ua) props extra w Hv).
Qed.

(** X12. The template program requires SLACK_TEAM_ID and never uses it:
    two environments with the same SLACK_BOT_TOKEN and any two non-empty
    team ids give the same process, whatever it is sent. *)
Theorem X12_team_id_unused :
  forall env1 env2 argv inputs w,
    env1 "SLACK_BOT_TOKEN" = env2 "SLACK_BOT_TOKEN" ->
    truthy (env_value env1 "SLACK_TEAM_ID") = true ->
    truthy (env_value env2 "SLACK_TEAM_ID") = true ->
    run_process (Template.main ups URLSearchParams_toString env1 argv) inputs w
    = run_process (Template.main ups URLSearchParams_toString env2 argv) inputs w.
Proof.
  intros env1 env2 argv inputs w Htok H1 H2.
  unfold Template.main. rewrite H1, H2.
  unfold env_value. rewrite Htok. reflexivity.
Qed.

(** X13. A required variable that is set to the empty string counts as
    absent: the bigquery program (in its current and its older copy) and
    the template program log the same diagnostic line and exit with
    status 1 without starting a transport or serving anything. *)
Theorem X13_empty_variable_is_absent :
  forall env argv inputs,
    (env "BIGQUERY_CREDENTIALS" = Some "" ->
     run (run_process (BigQuery.main ups JSON_parse costInUSD env argv) inputs)
     = (Exit 1,
        after init_world
          [ConsoleError "Please set BIGQUERY_CREDENTIALS environment variable";
           ProcessExit 1])
     /\ run (run_process
               (TemplateBigQuery.main ups JSON_parse costInUSD env argv) inputs)
        = (Exit 1,
           after init_world
             [ConsoleError "Please set BIGQUERY_CREDENTIALS environment variable";
              ProcessExit 1]))
    /\ (env "SLACK_BOT_TOKEN" = Some "" \/ env "SLACK_TEAM_ID" = Some "" ->
        run (run_process
               (Template.main ups URLSearchParams_toString env argv) inputs)
        = (Exit 1,
           after init_world
             [ConsoleError
                "Please set SLACK_BOT_TOKEN and SLACK_TEAM_ID environment variables";
              ProcessExit 1])).
Proof.
  intros env argv inputs. split.
  - intros H. split;
      unfold run, run_process, BigQuery.main, TemplateBigQuery.main, env_value;
      rewrite H; reflexivity.
  - intros H. unfold run, run_process, Template.main, env_value.
    destruct H as [H|H]; rewrite H; cbn [truthy negb orb String.eqb].
    + reflexivity.
    + rewrite orb_true_r. reflexivity.
Qed.

(** X14. Credentials that are set but are not valid JSON end the
    bigquery program (current and older copy) after its startup line:
    the exception of [JSON.parse] reaches the [catch] of [main()], which
    logs the fatal error and exits with status 1; no transport is
    started and nothing is served. *)
Theorem X14_malformed_credentials :
  forall env argv inputs credentials e,
    env "BIGQUERY_CREDENTIALS" = Some credentials ->
    credentials <> "" ->
    JSON_parse credentials = inl e ->
    run (run_process (BigQuery.main ups JSON_parse costInUSD env argv) inputs)
    = (Exit 1,
       after init_world
         [ConsoleError "Starting BigQuery MCP Server...";
          ConsoleError "Fatal error in main():";
          ProcessExit 1])
    /\ run (run_process
              (TemplateBigQuery.main ups JSON_parse costInUSD env argv) inputs)
       = (Exit 1,
          after init_world
            [ConsoleError "Starting BigQuery MCP Server...";
             ConsoleError "Fatal error in main():";
             ProcessExit 1]).
Proof.
  intros env argv inputs credentials e Henv Hne Hparse.
  assert (Ht : truthy (JStr credentials) = true).
  { cbn. destruct (String.eqb_spec credentials ""); [contradiction|reflexivity]. }
  split;
    unfold run, run_process, BigQuery.main, TemplateBigQuery.main,
      BigQuery.new_BigQueryClient, env_value;
    rewrite Henv, Ht; cbn [negb js_to_string];
    unfold_m; cbn [fst snd trace init_world app]; rewrite Hparse; reflexivity.
Qed.

(** X15. The older bigquery program has no push-stream branch: its
    [main] does not read the command line.  Whatever the arguments,
    [--sse] included, when it starts it logs its three lines around the
    connection of the duplex transport, opens no HTTP listener, and
    leaves no session handle. *)
Theorem X15_older_bigquery_stdio_only :
  forall env argv w r w',
    TemplateBigQuery.main ups JSON_parse costInUSD env argv w = (Ret r, w') ->
    snd r = StdioTransport
    /\ transport w' = transport w
    /\ since w w'
       = [ConsoleError "Starting BigQuery MCP Server...";
          ConsoleError "Connecting server to transport...";
          ServerConnect StdioTransport;
          ConsoleError "BigQuery MCP Server running on stdio"].
Proof.
  intros env argv w r w'.
  unfold TemplateBigQuery.main, BigQuery.new_BigQueryClient.
  destruct (negb (truthy (env_value env "BIGQUERY_CREDENTIALS"))).
  - unfold_m. cbn. discriminate.
  - unfold_m. cbn [fst snd trace].
    destruct (JSON_parse _) as [e|parsed]; [discriminate|].
    intros [= <- <-]. cbn [snd transport]. repeat split.
    apply since_app. cbn [trace]. norm_trace. reflexivity.
Qed.

End StartupProperties.

(* ================================================================= *)
(** ** The session handle of the push-stream transport *)

Section Frame.

Context {A B : Type}.

Lemma keeps_ret (a : A) : keeps_transport (ret a).
Proof. intros w. reflexivity. Qed.

Lemma keeps_throw (e : Thrown) : keeps_transport (@throw A e).
Proof. intros w. reflexivity. Qed.

Lemma keeps_lift (r : Thrown + A) : keeps_transport (lift r).
Proof. destruct r; [apply keeps_throw | apply keeps_ret]. Qed.

Lemma keeps_bind (m : M A) (k : A -> M B) :
  keeps_transport m -> (forall a, keeps_transport (k a)) ->
  keeps_transport (bind m k).
Proof.
  intros Hm Hk w. unfold bind. specialize (Hm w).
  destruct (m w) as [[a|e|c] w1]; cbn [snd] in *; try assumption.
  rewrite Hk. assumption.
Qed.

Lemma keeps_try_catch (m : M A) h :
  keeps_transport m -> (forall e, keeps_transport (h e)) ->
  keeps_transport (try_catch m h).
Proof.
  intros Hm Hh w. unfold try_catch. specialize (Hm w).
  destruct (m w) as [[a|e|c] w1]; cbn [snd] in *; try assumption.
  rewrite Hh. assumption.
Qed.

Lemma keeps_try_finally (m : M A) f :
  keeps_transport m -> keeps_transport f ->
  keeps_transport (try_finally m f).
Proof.
  intros Hm Hf w. unfold try_finally. specialize (Hm w).
  destruct (m w) as [[a|e|c] w1]; cbn [snd] in *; try assumption;
    specialize (Hf w1); destruct (f w1) as [[u|e'|c'] w2]; cbn [snd] in *;
    congruence.
Qed.

End Frame.

Lemma keeps_emit e : keeps_transport (emit e).
Proof. intros w. reflexivity. Qed.

Lemma keeps_get_world : keeps_transport get_world.
Proof. intros w. reflexivity. Qed.

Lemma keeps_new_closure : keeps_transport new_closure.
Proof. intros w. reflexivity. Qed.

Lemma keeps_fresh_signal b : keeps_transport (fresh_signal b).
Proof. intros w. reflexivity. Qed.

Lemma keeps_signal_aborted s : keeps_transport (signal_aborted s).
Proof. intros w. destruct s as [[]|]; reflexivity. Qed.

Lemma keeps_addEventListener s n c o :
  keeps_transport (addEventListener s n c o).
Proof. intros w. destruct s as [[]|]; reflexivity. Qed.

Lemma keeps_removeEventListener s n :
  keeps_transport (removeEventListener s n).
Proof. intros w. destruct s as [[]|]; reflexivity. Qed.

Ltac keeps_auto :=
  repeat first
    [ apply keeps_ret | apply keeps_throw | apply keeps_lift
    | apply keeps_emit | apply keeps_get_world | apply keeps_new_closure
    | apply keeps_fresh_signal | apply keeps_signal_aborted
    | apply keeps_addEventListener | apply keeps_removeEventListener
    | assumption
    | lazymatch goal with
      | |- keeps_transport (bind _ _) => apply keeps_bind; [|intros]
      | |- keeps_transport (try_catch _ _) => apply keeps_try_catch; [|intros]
      | |- keeps_transport (try_finally _ _) => apply keeps_try_finally
      | |- keeps_transport (if ?b then _ else _) => destruct b
      | |- keeps_transport (match ?x with _ => _ end) => destruct x
      | |- keeps_transport (console_error _) => unfold console_error
      end ].

Section FrameOfHandlers.

Variable ups : Upstream.
Variable JSON_parse : string -> Thrown + JSValue.
Variable costInUSD : JSValue -> JSValue.
Variable URLSearchParams_toString : list (string * JSValue) -> string.

Lemma keeps_run_callbacks ls : keeps_transport (run_callbacks ups ls).
Proof.
  induction ls as [|l ls IH]; cbn [run_callbacks]; [apply keeps_ret|].
  apply keeps_bind; [|intros; exact IH].
  destruct (l_callback l). unfold run_callback. keeps_auto.
Qed.

Lemma keeps_deliver_abort : keeps_transport (deliver_abort ups).
Proof.
  intros w. unfold deliver_abort. destruct (aborted w); [reflexivity|].
  rewrite keeps_run_callbacks. reflexivity.
Qed.

Lemma keeps_await {A} call (answer : list Event -> Thrown + A) :
  keeps_transport (await ups call answer).
Proof.
  unfold await. pose proof keeps_deliver_abort. keeps_auto.
Qed.

Ltac keeps_handler :=
  unfold BigQuery.executeQuery, BigQuery.dryRunQuery, BigQuery.getJob,
    BigQuery.cancelJob, BigQuery.createQueryJob, BigQuery.job_cancel,
    BigQuery.job_getQueryResults, BigQuery.job_getMetadata,
    BigQuery.path2, BigQuery.path3, Fetch.fetchUrl, Template.getUserProfile;
  repeat first [ apply keeps_await | progress keeps_auto ].

Lemma keeps_callTool s clients request extra :
  keeps_transport
    (callTool_of ups costInUSD URLSearchParams_toString s clients request extra).
Proof.
  destruct s; cbn [callTool_of];
    unfold BigQuery.callTool, Fetch.callTool, Template.callTool;
    keeps_handler.
Qed.

Lemma servers_keep_transport s clients :
  server_keeps_transport
    match s with
    | BigQueryService =>
        mkServer "BigQuery MCP Server"
          (BigQuery.callTool ups costInUSD (bigqueryClient clients))
          BigQuery.listTools None None
    | FetchService =>
        mkServer "Fetch MCP Server"
          (Fetch.callTool ups (fetchClient clients)) Fetch.listTools
          (Some Fetch.listPrompts)
          (Some (Fetch.getPrompt ups (fetchClient clients)))
    | TemplateService =>
        mkServer "Slack MCP Server"
          (Template.callTool ups URLSearchParams_toString (slackClient clients))
          Template.listTools None None
    end.
Proof.
  destruct s; repeat split; cbn; intros; try discriminate;
    try (match goal with H : Some _ = Some _ |- _ => injection H as <- end);
    first
      [ exact (keeps_callTool BigQueryService clients request extra)
      | exact (keeps_callTool FetchService clients request extra)
      | exact (keeps_callTool TemplateService clients request extra)
      | unfold BigQuery.listTools, Fetch.listTools, Template.listTools,
          Fetch.listPrompts, Fetch.getPrompt; keeps_handler ].
Qed.

End FrameOfHandlers.

Lemma keeps_respond kind method h :
  (forall h', h = Some h' -> keeps_transport h') ->
  keeps_transport (respond kind method h).
Proof.
  intros H. destruct h as [h|]; cbn [respond]; [|apply keeps_emit].
  specialize (H h eq_refl).
  apply keeps_bind; [apply keeps_emit|intros _].
  intros w. specialize (H w).
  destruct (h w) as [[v|e|c] w1]; cbn [snd] in *; assumption.
Qed.

Lemma keeps_handle_message server kind msg :
  server_keeps_transport server ->
  keeps_transport (handle_message server kind msg).
Proof.
  intros (Hc & Hl & Hp & Hg). unfold handle_message.
  apply keeps_bind; [apply keeps_fresh_signal|intros _].
  destruct (message msg); apply keeps_respond.
  - intros h' [= <-]. apply Hc.
  - intros h' [= <-]. apply Hl.
  - exact Hp.
  - intros h' Hh. destruct (onGetPrompt server) as [g|] eqn:Eg; [|discriminate].
    cbn in Hh. injection Hh as <-. eapply Hg; reflexivity.
Qed.

(** The session handle after a sequence of inputs is the one opened by
    the last request on [/sse]: posted messages never change it, and
    nothing ever clears it. *)
Lemma serve_last_session server inputs w :
  server_ok server ->
  server_keeps_transport server ->
  transport (snd (serve (server, SSETransport) inputs w))
  = last_session inputs (transport w).
Proof.
  intros Hok Hs. revert w.
  induction inputs as [|i rest IH]; intros w; cbn [serve last_session].
  - reflexivity.
  - unfold bind at 1. destruct i as [msg|res|req]; cbn [step fst snd].
    + cbn. apply IH.
    + unfold app_get_sse. unfold_m. cbn [fst snd]. rewrite IH. reflexivity.
    + pose proof (keeps_handle_message server SSETransport req Hs) as Hk.
      pose proof (post_handle_message server SSETransport req Hok) as Hp.
      unfold app_post_messages. unfold bind at 1. unfold get_world.
      destruct (transport w) as [t|] eqn:Et.
      * unfold bind at 1. unfold emit.
        match goal with |- context [handle_message _ _ _ ?w0] =>
          specialize (Hk w0); destruct (Hp w0) as (evs & _ & _ & O);
          destruct (handle_message server SSETransport req w0)
            as [[u|e|c] w1] end; cbn [fst snd transport] in *;
          try contradiction.
        rewrite IH, Hk, Et. reflexivity.
      * cbn. rewrite IH, Et. reflexivity.
Qed.

Section SessionHandle.

Variable ups : Upstream.
Variable JSON_parse : string -> Thrown + JSValue.
Variable costInUSD : JSValue -> JSValue.
Variable URLSearchParams_toString : list (string * JSValue) -> string.

Lemma main_returns s env argv r w1 :
  main_of ups JSON_parse costInUSD URLSearchParams_toString s env argv init_world
  = (Ret r, w1) ->
  server_ok (fst r) /\ server_keeps_transport (fst r)
  /\ snd r = transport_of argv /\ transport w1 = None.
Proof.
  destruct s; cbn [main_of];
    unfold BigQuery.main, Fetch.main, Template.main,
      BigQuery.new_BigQueryClient, start_transport, transport_of.
  - destruct (negb (truthy (env_value env "BIGQUERY_CREDENTIALS")));
      [unfold_m; cbn; discriminate|].
    unfold_m. cbn [fst snd trace init_world].
    destruct (JSON_parse _) as [e|parsed]; [discriminate|].
    destruct (includes "--sse" argv); intros [= <- <-]; cbn [fst snd transport];
      (refine (conj _ (conj _ (conj eq_refl eq_refl)));
       [ apply bigquery_server_ok; assumption
       | apply (servers_keep_transport ups costInUSD
                       URLSearchParams_toString BigQueryService
                       (mkClients (BigQuery.mkClient parsed)
                          (Fetch.mkClient "") (Template.mkClient []))) ]).
  - unfold_m. cbn [fst snd trace init_world].
    destruct (includes "--sse" argv); intros [= <- <-]; cbn [fst snd transport];
      (refine (conj _ (conj _ (conj eq_refl eq_refl)));
       [ apply fetch_server_ok; assumption
       | apply (servers_keep_transport ups costInUSD
                       URLSearchParams_toString FetchService
                       (mkClients (BigQuery.mkClient JNull)
                          (Fetch.mkClient _) (Template.mkClient []))) ]).
  - destruct (negb (truthy (env_value env "SLACK_BOT_TOKEN"))
              || negb (truthy (env_value env "SLACK_TEAM_ID")));
      [unfold_m; cbn; discriminate|].
    unfold_m. cbn [fst snd trace init_world].
    destruct (includes "--sse" argv); intros [= <- <-]; cbn [fst snd transport];
      (refine (conj _ (conj _ (conj eq_refl eq_refl)));
       [ apply template_server_ok; assumption
       | apply (servers_keep_transport ups costInUSD
                       URLSearchParams_toString TemplateService
                       (mkClients (BigQuery.mkClient JNull)
                          (Fetch.mkClient "") (Template.new_SlackClient _))) ]).
Qed.

(** X16. In push-stream mode, in each of the three programs, the stored
    session handle is always the one of the most recent request on
    [/sse]: after any sequence of inputs it is the transport created for
    the last such request, and none if there was none.  A new session
    silently replaces the previous one, handling a posted message never
    changes the handle, and nothing ever resets it to [null]. *)
Theorem X16_session_handle :
  forall s env argv inputs r w1,
    includes "--sse" argv = true ->
    run (main_of ups JSON_parse costInUSD URLSearchParams_toString s env argv)
    = (Ret r, w1) ->
    transport
      (snd (run (run_process
                   (main_of ups JSON_parse costInUSD URLSearchParams_toString
                      s env argv) inputs)))
    = last_session inputs None.
Proof.
  intros s env argv inputs r w1 Hsse Hmain. unfold run in *.
  destruct (main_returns s env argv r w1 Hmain) as (Hok & Hk & Hkind & Ht).
  unfold run_process, bind, try_catch. rewrite Hmain.
  destruct r as [server kind]. cbn [fst snd] in *.
  unfold transport_of in Hkind. rewrite Hsse in Hkind. subst kind.
  rewrite serve_last_session by assumption. rewrite Ht. reflexivity.
Qed.

End SessionHandle.

(* ================================================================= *)
(** ** The older copies of the bigquery and fetch programs *)

Ltac use_fetch_answer :=
  match goal with
  | H : forall (h : list Event) u hs, up_fetch _ h u hs = _ |- _ => rewrite H
  end.

Section OlderPrograms.

Variable ups : Upstream.
Variable costInUSD : JSValue -> JSValue.


(** X18. [executeQuery] of the older program has no cancellation at all:
    whatever the upstream answers and whether or not the client aborts,
    it requests no cancellation and touches no listener, and it returns.
    When [createQueryJob] rejects, the results are never requested; and
    a rejection is reported with its own message, an AbortError
    included. *)
Theorem X18_older_execute_query :
  forall client query w,
    listeners w = [] ->
    let r := TemplateBigQuery.executeQuery ups client query w in
    count is_cancel (since w (snd r)) = 0%nat
    /\ count is_add (since w (snd r)) = 0%nat
    /\ count is_remove (since w (snd r)) = 0%nat
    /\ (exists v, fst r = Ret v)
    /\ (forall e,
          (forall h o, up_createQueryJob ups h o = inl e) ->
          fst r = Ret (BigQuery.failure (error_message e))
          /\ count is_results (since w (snd r)) = 0%nat)
    /\ (forall job e,
          (forall h o, up_createQueryJob ups h o = inr job) ->
          (forall h, up_getQueryResults ups h job = inl e) ->
          fst r = Ret (BigQuery.failure (error_message e))).
Proof.
  intros client query w Hl r. subst r. open_world w.
  unfold TemplateBigQuery.executeQuery, BigQuery.createQueryJob,
    BigQuery.job_getQueryResults, await, deliver_abort.
  repeat split; intros; client_run; client_done.
Qed.

(** X19. The older fetch program sends a Content-Type header with its
    User-Agent, and otherwise answers like the current one: for a
    request with a truthy [url] its first upstream call is the fetch
    with both headers, and whenever the upstream's answer depends on the
    URL only, the two call-tool handlers return the same response to the
    same request. *)
Theorem X19_older_fetch :
  forall client,
    (forall props extra w,
        truthy (lookup "url" props) = true ->
        exists rest,
          since w (snd (UnnamedFetch.callTool ups client
                          (mkCallTool "fetch" (JObj props)) extra w))
          = received
            :: Call (HttpFetch (lookup "url" props)
                       [("User-Agent", Fetch.userAgent client);
                        ("Content-Type", "text/plain; charset=UTF-8")])
            :: rest)
    /\ (forall answer request extra w,
          listeners w = [] ->
          (forall h u hs, up_fetch ups h u hs = answer u) ->
          fst (UnnamedFetch.callTool ups client request extra w)
          = fst (Fetch.callTool ups client request extra w)).
Proof.
  intros client. split.
  - intros props extra w Hv.
    assert (P : post [received;
                      Call (HttpFetch (lookup "url" props)
                              [("User-Agent", Fetch.userAgent client);
                               ("Content-Type", "text/plain; charset=UTF-8")])]
                  handler_event any never never
                  (UnnamedFetch.callTool ups client
                     (mkCallTool "fetch" (JObj props)) extra)).
    { unfold UnnamedFetch.callTool, UnnamedFetch.fetchUrl, console_error, received.
      cbn [params_name params_arguments truthy negb get_prop lift]. eval_eqb.
      apply post_first.
      apply post_catch_any; [|intros; post_auto ups].
      apply post_bind_ret. rewrite Hv. cbn [negb].
      apply post_bind_any; [|intros; post_auto ups].
      apply post_catch_any; [|intros; post_auto ups].
      apply post_bind_any; [apply post_no_exit; apply post_await|intros].
      post_auto ups. }
    destruct (P w) as (evs & T & _ & _).
    exists evs. apply since_app. exact T.
  - intros answer [name args] extra w Hl Ha. open_world w.
    unfold UnnamedFetch.callTool, Fetch.callTool, UnnamedFetch.fetchUrl,
      Fetch.fetchUrl, await, deliver_abort.
    cbn [params_name params_arguments].
    destruct (truthy args) eqn:Hargs; cbn [negb];
      [|unfold_m; reflexivity].
    destruct (name =? "fetch")%string; [|unfold_m; reflexivity].
    destruct (get_prop args "url") as [e|url] eqn:Hurl;
      [unfold_m; reflexivity|].
    cbn [lift]. destruct (truthy url) eqn:Hv; cbn [negb];
      [|repeat (progress unfold_m); cbn [fst snd]; rewrite Hv; reflexivity].
    repeat (progress unfold_m). red_world. rewrite Hv. cbn [negb].
    destruct (answer url) as [e|response] eqn:Hans;
      [|destruct (resp_ok response) eqn:Hok;
        [destruct (resp_text response) eqn:Ht|]];
      repeat first
        [ progress unfold_m | progress red_world | progress norm_trace
        | rewrite Ha | rewrite Hans | rewrite Hok | rewrite Ht
        | match goal with
          | |- context [if up_abort ?u ?h then _ else _] =>
              destruct (up_abort u h)
          | |- context [if ?b then _ else _] => is_var b; destruct b
          end ];
      reflexivity.
Qed.

End OlderPrograms.

(* ================================================================= *)
(** ** The Slack client of the template *)

Section SlackProperties.

Variable ups : Upstream.
Variable URLSearchParams_toString : list (string * JSValue) -> string.


End SlackProperties.

(* ================================================================= *)
(** ** scripts/create-mcp.js *)

Ltac script_unfold :=
  unfold CreateMcp.createPackage, CreateMcp.question, CreateMcp.existsSync,
    CreateMcp.execSync, CreateMcp.readFileSync, CreateMcp.writeFileSync,
    CreateMcp.console_error, CreateMcp.console_log, CreateMcp.s_try_finally,
    CreateMcp.s_try_catch, CreateMcp.s_bind, CreateMcp.s_call,
    CreateMcp.s_emit, CreateMcp.s_exit, CreateMcp.s_ret, CreateMcp.s_lift,
    answered, name_prompt in *.

Ltac script_step :=
  match goal with
  | |- context [if CreateMcp.host_exists ?h ?t ?p then _ else _] =>
      destruct (CreateMcp.host_exists h t p) eqn:?
  | |- context [match ?x with inl _ => _ | inr _ => _ end] =>
      lazymatch x with
      | inl _ => fail
      | inr _ => fail
      | _ => destruct x eqn:?
      end
  end.

Ltac script_run :=
  script_unfold; cbn [app fst snd];
  repeat (script_step; tidy; cbn [app fst snd]).

Lemma lookup_assign_same k v props :
  lookup k (CreateMcp.assign k v props) = v.
Proof.
  induction props as [|[k' v'] rest IH]; cbn.
  - rewrite String.eqb_refl. reflexivity.
  - destruct (String.eqb_spec k' k) as [->|Hne]; cbn.
    + rewrite String.eqb_refl. reflexivity.
    + destruct (String.eqb_spec k' k); [contradiction|]. exact IH.
Qed.

Lemma lookup_assign_other k k0 v props :
  k0 <> k -> lookup k0 (CreateMcp.assign k v props) = lookup k0 props.
Proof.
  intros Hne. induction props as [|[k' v'] rest IH]; cbn.
  - destruct (String.eqb_spec k k0); [congruence|reflexivity].
  - destruct (String.eqb_spec k' k) as [->|Hk]; cbn.
    + destruct (String.eqb_spec k k0); [congruence|]. reflexivity.
    + destruct (String.eqb_spec k' k0); [reflexivity|]. exact IH.
Qed.

Section ScriptProperties.

Variable host : CreateMcp.Host.
Variable path_join : list string -> string.
Variable JSON_parse : string -> Thrown + JSValue.
Variable JSON_stringify_indented : JSValue -> JSValue.
Variable replace_all : string -> string -> string -> string.
Variable toUpperCase : string -> string.

Let createPackage : CreateMcp.Script unit :=
  CreateMcp.createPackage host path_join JSON_parse JSON_stringify_indented
    replace_all toUpperCase.

Let packageDir : string := path_join ["packages"; answered host].

(** X21. When the directory of the package already exists, the script
    stops at once: it logs "Package <name> already exists!" and exits
    with status 1; the template is not copied and no file is read or
    written. *)
Theorem X21_existing_package_untouched :
  CreateMcp.host_exists host
    [CreateMcp.RlQuestion name_prompt; CreateMcp.ExistsSync packageDir]
    packageDir = true ->
  createPackage []
  = (Exit 1,
     [CreateMcp.RlQuestion name_prompt;
      CreateMcp.ExistsSync packageDir;
      CreateMcp.ErrorLine ("Package " ++ answered host ++ " already exists!");
      CreateMcp.Exited 1]).
Proof.
  intros H. subst createPackage packageDir. script_unfold. cbn [app fst snd].
  rewrite H. reflexivity.
Qed.

(** X22. The script never rejects: it either completes, and then the
    last thing it does is close the readline interface, with no exit
    and no error line before; or it exits with status 1 right after an
    error line, and then the readline interface is never closed, since
    the exit comes before the [finally] block. *)
Theorem X22_script_outcomes :
  (fst (createPackage []) = Ret tt
   /\ last (snd (createPackage [])) (CreateMcp.LogLine "") = CreateMcp.RlClose
   /\ existsb is_exited (snd (createPackage [])) = false
   /\ existsb is_error_line (snd (createPackage [])) = false
   /\ List.length (written (snd (createPackage []))) = 4%nat)
  \/ (fst (createPackage []) = Exit 1
      /\ last (snd (createPackage [])) (CreateMcp.LogLine "")
         = CreateMcp.Exited 1
      /\ existsb is_error_line (snd (createPackage [])) = true
      /\ existsb is_close (snd (createPackage [])) = false).
Proof.
  subst createPackage. script_run;
    first [ left; repeat split; reflexivity
          | right; repeat split; reflexivity ].
Qed.


(** X24. On a host where nothing fails and whose [package.json] parses
    to an object, the object written back has [name] set to
    "@thlee/<name>-mcp", [description] to "<name> MCP Server" and [bin]
    to the one entry "mcp-server-<name>" for "dist/index.js", and every
    other property of the template's [package.json] as it was read. *)
Theorem X24_package_json_rewritten :
  forall content props,
    cooperative host content ->
    JSON_parse (content (path_join [packageDir; "package.json"]))
    = inr (JObj props) ->
    exists props',
      In (CreateMcp.WriteFileSync (path_join [packageDir; "package.json"])
            (JSON_stringify_indented (JObj props')))
        (snd (createPackage []))
      /\ lookup "name" props' = JStr ("@thlee/" ++ answered host ++ "-mcp")
      /\ lookup "description" props' = JStr (answered host ++ " MCP Server")
      /\ lookup "bin" props'
         = JObj [("mcp-server-" ++ answered host, JStr "dist/index.js")]
      /\ forall k,
          k <> "name" -> k <> "description" -> k <> "bin" ->
          lookup k props' = lookup k props.
Proof.
  intros content props (Hex & Hexec & Hread & Hwrite) Hparse.
  exists (CreateMcp.assign "bin"
            (JObj [("mcp-server-" ++ answered host, JStr "dist/index.js")])
            (CreateMcp.assign "description"
               (JStr (answered host ++ " MCP Server"))
               (CreateMcp.assign "name"
                  (JStr ("@thlee/" ++ answered host ++ "-mcp")) props))).
  split; [|repeat split].
  - subst createPackage packageDir. script_unfold. cbn [app fst snd].
    rewrite !Hex, !Hexec, !Hread. cbn [app fst snd].
    rewrite Hparse. cbn [CreateMcp.set_prop app fst snd].
    rewrite !Hwrite. cbn [app fst snd].
    rewrite !Hread. cbn [app fst snd]. rewrite !Hwrite. cbn [app fst snd].
    rewrite !Hread. cbn [app fst snd]. rewrite !Hwrite. cbn [app fst snd].
    rewrite !Hread. cbn [app fst snd]. rewrite !Hwrite. cbn [app fst snd].
    cbn [In]. tauto.
  - rewrite lookup_assign_other by discriminate.
    rewrite lookup_assign_other by discriminate.
    apply lookup_assign_same.
  - rewrite lookup_assign_other by discriminate.
    apply lookup_assign_same.
  - apply lookup_assign_same.
  - intros k H1 H2 H3. rewrite !lookup_assign_other by congruence. reflexivity.
Qed.

(** X25. On a host where nothing fails and whose [package.json] parses
    to an object, the three text files are written back with the
    replacement of their own pattern applied to what was read:
    "TemplateMCPServer" becomes the capitalized name followed by
    "MCPServer" in [index.ts], "packages/template" becomes
    "packages/<name>" in [Dockerfile], and "Template" becomes the
    capitalized name in [README.md]; and the script completes.  The
    capitalized name is the upper case of the first code unit of the
    name, followed by its other code units: of a first character up to
    U+FFFF the whole character is upper-cased, of one above only its high
    surrogate is handed to [toUpperCase]. *)
Theorem X25_text_files_rewritten :
  forall content props,
    cooperative host content ->
    JSON_parse (content (path_join [packageDir; "package.json"]))
    = inr (JObj props) ->
    let capitalized :=
      CreateMcp.append (toUpperCase (CreateMcp.charAt0 (answered host)))
        (CreateMcp.slice1 (answered host)) in
    fst (createPackage []) = Ret tt
    /\ In (CreateMcp.WriteFileSync (path_join [packageDir; "index.ts"])
             (JStr (replace_all "TemplateMCPServer" (capitalized ++ "MCPServer")
                      (content (path_join [packageDir; "index.ts"])))))
         (snd (createPackage []))
    /\ In (CreateMcp.WriteFileSync (path_join [packageDir; "Dockerfile"])
             (JStr (replace_all "packages/template"
                      ("packages/" ++ answered host)
                      (content (path_join [packageDir; "Dockerfile"])))))
         (snd (createPackage []))
    /\ In (CreateMcp.WriteFileSync (path_join [packageDir; "README.md"])
             (JStr (replace_all "Template" capitalized
                      (content (path_join [packageDir; "README.md"])))))
         (snd (createPackage []))
    /\ written (snd (createPackage []))
       = [path_join [packageDir; "package.json"];
          path_join [packageDir; "index.ts"];
          path_join [packageDir; "Dockerfile"];
          path_join [packageDir; "README.md"]].
Proof.
  intros content props (Hex & Hexec & Hread & Hwrite) Hparse capitalized.
  subst capitalized createPackage packageDir.
  script_unfold. unfold CreateMcp.capitalized. cbn [app fst snd].
  rewrite !Hex, !Hexec, !Hread. cbn [app fst snd].
  rewrite Hparse. cbn [CreateMcp.set_prop app fst snd].
  rewrite !Hwrite. cbn [app fst snd].
  rewrite !Hread. cbn [app fst snd]. rewrite !Hwrite. cbn [app fst snd].
  rewrite !Hread. cbn [app fst snd]. rewrite !Hwrite. cbn [app fst snd].
  rewrite !Hread. cbn [app fst snd]. rewrite !Hwrite. cbn [app fst snd].
  repeat split; cbn [In written]; tauto.
Qed.

End ScriptProperties.

(* ================================================================= *)
(** ** Concrete runs of the further properties *)

Lemma X3_witness :
  listeners init_world = []
  /\ count is_cancel
       (events (BigQuery.executeQuery aborting_while_waiting
                  (bigqueryClient sample_clients) (JStr "SELECT 1") None))
     = 0%nat.
Proof.
  split; [reflexivity|].
  exact (proj1 (X3_no_signal_no_cancellation aborting_while_waiting
                  (bigqueryClient sample_clients) (JStr "SELECT 1") init_world
                  eq_refl)).
Defined.

Lemma X4_witness :
  aborted init_world = false
  /\ listeners init_world = []
  /\ events (BigQuery.executeQuery accepting (bigqueryClient sample_clients)
               (JStr "SELECT 1") (Some RequestSignal))
     = [start_of (JStr "SELECT 1");
        AddEventListener 0 true;
        Call (JobGetQueryResults sample_job);
        RemoveEventListener 0].
Proof.
  split; [reflexivity|]. split; [reflexivity|].
  exact (proj1 (X4_execute_query_undisturbed accepting
                  (bigqueryClient sample_clients) (JStr "SELECT 1") init_world
                  eq_refl eq_refl (fun _ => eq_refl))).
Defined.

Lemma X5_witness :
  listeners init_world = []
  /\ filter is_call
       (events (BigQuery.dryRunQuery (rejecting boom) sample_cost
                  (bigqueryClient sample_clients) (JStr "SELECT 1")))
     = [Call (CreateQueryJob
                (JObj [("query", JStr "SELECT 1"); ("dryRun", JBool true)]))].
Proof.
  split; [reflexivity|].
  exact (proj1 (X5_dry_run_single_call (rejecting boom) sample_cost
                  (bigqueryClient sample_clients) (JStr "SELECT 1") init_world
                  eq_refl)).
Defined.

Lemma X6_witness :
  job_metadata sample_job = JObj []
  /\ lookup "statistics" [] = JUndefined
  /\ result (BigQuery.dryRunQuery accepting sample_cost
               (bigqueryClient sample_clients) (JStr "SELECT 1"))
     = Ret (BigQuery.failure
              "Cannot read properties of undefined (reading 'query')").
Proof.
  split; [reflexivity|]. split; [reflexivity|].
  exact (proj2 (X6_dry_run_metadata accepting sample_cost
                  (bigqueryClient sample_clients) (JStr "SELECT 1") init_world
                  sample_job [] (fun _ _ => eq_refl) eq_refl)
               eq_refl).
Defined.

Lemma X7_witness :
  listeners init_world = []
  /\ filter is_call
       (events (BigQuery.getJob accepting (bigqueryClient sample_clients)
                  (JStr "job_1")))
     = [Call (JobGetMetadata (BigQuery.client_job (JStr "job_1")))].
Proof.
  split; [reflexivity|].
  exact (proj1 (X7_get_job_reads_only accepting (bigqueryClient sample_clients)
                  (JStr "job_1") init_world eq_refl)).
Defined.

Lemma X8_witness :
  listeners init_world = []
  /\ result (BigQuery.cancelJob (rejecting boom) (bigqueryClient sample_clients)
               (JStr "job_1"))
     = Ret (BigQuery.failure "boom")
  /\ filter is_call
       (events (BigQuery.cancelJob (rejecting boom)
                  (bigqueryClient sample_clients) (JStr "job_1")))
     = [Call (JobCancel (BigQuery.client_job (JStr "job_1")))].
Proof.
  split; [reflexivity|].
  exact (proj1 (X8_cancel_job_order (rejecting boom)
                  (bigqueryClient sample_clients) (JStr "job_1") init_world
                  eq_refl)
               boom (fun _ => eq_refl)).
Defined.



Lemma X12_witness :
  slack_env "T1" "SLACK_BOT_TOKEN" = slack_env "T2" "SLACK_BOT_TOKEN"
  /\ run (run_process (Template.main accepting sample_params (slack_env "T1") [])
            [StdinMessage (mkInbound ListTools false)])
     = run (run_process (Template.main accepting sample_params (slack_env "T2") [])
              [StdinMessage (mkInbound ListTools false)]).
Proof.
  split; [reflexivity|].
  exact (X12_team_id_unused accepting sample_params (slack_env "T1")
           (slack_env "T2") [] [StdinMessage (mkInbound ListTools false)]
           init_world eq_refl eq_refl eq_refl).
Defined.

Lemma X13_witness :
  bigquery_env "" "BIGQUERY_CREDENTIALS" = Some ""
  /\ events (run_process
               (BigQuery.main accepting sample_parse sample_cost
                  (bigquery_env "") [])
               [StdinMessage (mkInbound ListTools false)])
     = [ConsoleError "Please set BIGQUERY_CREDENTIALS environment variable";
        ProcessExit 1].
Proof.
  split; [reflexivity|].
  exact (f_equal (fun r => trace (snd r))
           (proj1 (proj1 (X13_empty_variable_is_absent accepting sample_parse
                            sample_cost sample_params (bigquery_env "") []
                            [StdinMessage (mkInbound ListTools false)])
                         eq_refl))).
Defined.

Lemma X14_witness :
  bigquery_env "{oops" "BIGQUERY_CREDENTIALS" = Some "{oops"
  /\ failing_parse "{oops" = inl (JSError "SyntaxError" "Unexpected token")
  /\ events (run_process
               (BigQuery.main accepting failing_parse sample_cost
                  (bigquery_env "{oops") [])
               [StdinMessage (mkInbound ListTools false)])
     = [ConsoleError "Starting BigQuery MCP Server...";
        ConsoleError "Fatal error in main():";
        ProcessExit 1].
Proof.
  split; [reflexivity|]. split; [reflexivity|].
  assert (Hne : "{oops" <> "") by discriminate.
  exact (f_equal (fun r => trace (snd r))
           (proj1 (X14_malformed_credentials accepting failing_parse sample_cost
                     (bigquery_env "{oops") []
                     [StdinMessage (mkInbound ListTools false)] "{oops"
                     (JSError "SyntaxError" "Unexpected token")
                     eq_refl Hne eq_refl))).
Defined.

Lemma X15_witness :
  since init_world
    (snd (TemplateBigQuery.main accepting sample_parse sample_cost
            (bigquery_env "{}") ["--sse"] init_world))
  = [ConsoleError "Starting BigQuery MCP Server...";
     ConsoleError "Connecting server to transport...";
     ServerConnect StdioTransport;
     ConsoleError "BigQuery MCP Server running on stdio"].
Proof.
  exact (proj2 (proj2
           (X15_older_bigquery_stdio_only accepting sample_parse sample_cost
              (bigquery_env "{}") ["--sse"] init_world
              (mkServer "BigQuery MCP Server"
                 (TemplateBigQuery.callTool accepting sample_cost
                    (BigQuery.mkClient (JObj [])))
                 TemplateBigQuery.listTools None None,
               StdioTransport)
              (snd (TemplateBigQuery.main accepting sample_parse sample_cost
                      (bigquery_env "{}") ["--sse"] init_world))
              eq_refl))).
Defined.

Lemma X16_witness :
  includes "--sse" ["--sse"] = true
  /\ transport
       (snd (run (run_process
                    (BigQuery.main accepting sample_parse sample_cost
                       (bigquery_env "{}") ["--sse"])
                    [HttpGetSse 1;
                     HttpPostMessages (mkInbound ListTools false);
                     HttpGetSse 2;
                     HttpPostMessages (mkInbound ListTools false)])))
     = Some (mkSSE "/messages" 2).
Proof.
  split; [reflexivity|].
  exact (X16_session_handle accepting sample_parse sample_cost sample_params
           BigQueryService (bigquery_env "{}") ["--sse"]
           [HttpGetSse 1;
            HttpPostMessages (mkInbound ListTools false);
            HttpGetSse 2;
            HttpPostMessages (mkInbound ListTools false)]
           (mkServer "BigQuery MCP Server"
              (BigQuery.callTool accepting sample_cost
                 (BigQuery.mkClient (JObj [])))
              BigQuery.listTools None None,
            SSETransport)
           (snd (run (BigQuery.main accepting sample_parse sample_cost
                        (bigquery_env "{}") ["--sse"])))
           eq_refl eq_refl).
Defined.


Lemma X18_witness :
  listeners init_world = []
  /\ count is_cancel
       (events (TemplateBigQuery.executeQuery aborting_while_waiting
                  (bigqueryClient sample_clients) (JStr "SELECT 1")))
     = 0%nat.
Proof.
  split; [reflexivity|].
  exact (proj1 (X18_older_execute_query aborting_while_waiting
                  (bigqueryClient sample_clients) (JStr "SELECT 1") init_world
                  eq_refl)).
Defined.

Lemma X19_witness :
  listeners init_world = []
  /\ result (UnnamedFetch.callTool accepting (fetchClient sample_clients)
               (mkCallTool "fetch" (JObj example_url)) sample_extra)
     = result (Fetch.callTool accepting (fetchClient sample_clients)
                 (mkCallTool "fetch" (JObj example_url)) sample_extra).
Proof.
  split; [reflexivity|].
  exact (proj2 (X19_older_fetch accepting (fetchClient sample_clients))
               (fun _ => inr sample_response)
               (mkCallTool "fetch" (JObj example_url)) sample_extra init_world
               eq_refl (fun _ _ _ => eq_refl)).
Defined.


Lemma X21_witness :
  CreateMcp.host_exists occupied_host
    [CreateMcp.RlQuestion name_prompt;
     CreateMcp.ExistsSync "packages/weather"] "packages/weather" = true
  /\ CreateMcp.createPackage occupied_host sample_path_join script_parse
       JSON_stringify sample_replace sample_upper []
     = (Exit 1,
        [CreateMcp.RlQuestion name_prompt;
         CreateMcp.ExistsSync "packages/weather";
         CreateMcp.ErrorLine "Package weather already exists!";
         CreateMcp.Exited 1]).
Proof.
  split; [reflexivity|].
  exact (X21_existing_package_untouched occupied_host sample_path_join
           script_parse JSON_stringify sample_replace sample_upper eq_refl).
Defined.

Lemma cooperative_sample_host :
  cooperative sample_host (fun p => "contents of " ++ p).
Proof. repeat split. Qed.

Lemma X24_witness :
  cooperative sample_host (fun p => "contents of " ++ p)
  /\ exists props',
      In (CreateMcp.WriteFileSync "packages/weather/package.json"
            (JSON_stringify (JObj props')))
        (snd (CreateMcp.createPackage sample_host sample_path_join script_parse
                JSON_stringify sample_replace sample_upper []))
      /\ lookup "name" props' = JStr "@thlee/weather-mcp"
      /\ lookup "version" props' = JStr "1.0.0".
Proof.
  split; [apply cooperative_sample_host|].
  destruct (X24_package_json_rewritten sample_host sample_path_join script_parse
              JSON_stringify sample_replace sample_upper
              (fun p => "contents of " ++ p) sample_package_json
              cooperative_sample_host eq_refl)
    as (props' & Hin & Hname & _ & _ & Hother).
  exists props'. split; [exact Hin|]. split; [exact Hname|].
  rewrite Hother by discriminate. reflexivity.
Defined.

Lemma cooperative_greek_host : cooperative greek_host named_files.
Proof. repeat split. Qed.

Lemma X25_witness :
  cooperative greek_host named_files
  /\ fst (CreateMcp.createPackage greek_host sample_path_join script_parse
            JSON_stringify whole_replace greek_upper [])
     = Ret tt
  /\ In (CreateMcp.WriteFileSync "packages/ωmega/index.ts"
           (JStr "ΩmegaMCPServer"))
       (snd (CreateMcp.createPackage greek_host sample_path_join script_parse
               JSON_stringify whole_replace greek_upper []))
  /\ In (CreateMcp.WriteFileSync "packages/ωmega/README.md" (JStr "Ωmega"))
       (snd (CreateMcp.createPackage greek_host sample_path_join script_parse
               JSON_stringify whole_replace greek_upper [])).
Proof.
  split; [apply cooperative_greek_host|].
  pose proof (X25_text_files_rewritten greek_host sample_path_join
                script_parse JSON_stringify whole_replace greek_upper
                named_files sample_package_json
                cooperative_greek_host eq_refl) as (H1 & H2 & _ & H4 & _).
  split; [exact H1|]. split; [exact H2 | exact H4].
Defined.
